(** * Weather forecasting application: the data-access and persistence core

    A shallow embedding of [weather_forecast_app.py]: the class
    [WeatherData] (method [fetch_weather]) and the class [DatabaseManager]
    (the favourites and history tables), followed by the properties the
    specification states about them.

    Python objects that come out of [response.json()] are modelled by the
    inductive type [value]; a Python float is a binary64 number
    ([PrimFloat.float]), a Python int an unbounded integer ([Z]), a
    dictionary a finite map with string keys.  Code that can raise is
    written in a state-and-exception monad [M]: the state is what the
    method can change (the list of HTTP requests sent, or the database
    behind the connection), the outcome is a returned value or a raised
    exception. *)

From Stdlib Require Import ZArith Floats.PrimFloat Strings.Ascii DecimalString.
From Stdlib Require Uint63.
From stdpp Require Import base gmap list strings.

Set Warnings "-register-all,-inexact-float".
Set Default Proof Using "Type".

Local Open Scope Z_scope.

(** ** Python values, exceptions and the monad of effects *)

Module Py.

(** What [json.loads] can produce. *)
Inductive value : Type :=
  | VNone
  | VBool (b : bool)
  | VInt (z : Z)
  | VFloat (f : float)
  | VStr (s : string)
  | VList (l : list value)
  | VDict (d : gmap string value).

(** A subscript: [x["name"]] or [x[0]]. *)
Inductive key : Type :=
  | KStr (s : string)
  | KInt (z : Z).

(** The exception classes that occur in the two modelled classes.
    [RequestException] stands for [requests.RequestException] and its
    subclasses and carries [str(e)]; [KeyError] carries the missing key;
    [InterfaceError] is what sqlite3 raises for a parameter of a type
    it cannot bind ([ProgrammingError] in later versions of Python). *)
Inductive exn : Type :=
  | RequestException (msg : string)
  | KeyError (k : key)
  | IndexError
  | TypeError
  | AttributeError
  | ValueError
  | OverflowError
  | InterfaceError
  | IntegrityError.

Inductive outcome (A : Type) : Type :=
  | Return (a : A)
  | Raise (e : exn).
Arguments Return {A} a.
Arguments Raise {A} e.

(** A computation over a state [S]: the state survives a raised
    exception, as the heap of a Python program does. *)
Definition M (S A : Type) : Type := S -> outcome A * S.

Definition ret {S A} (a : A) : M S A := fun s => (Return a, s).

Definition raise {S A} (e : exn) : M S A := fun s => (Raise e, s).

Definition bind {S A B} (m : M S A) (k : A -> M S B) : M S B :=
  fun s =>
    match m s with
    | (Return a, s') => k a s'
    | (Raise e, s') => (Raise e, s')
    end.

(** [lift o]: a call whose result is already known as an outcome. *)
Definition lift {S A} (o : outcome A) : M S A := fun s => (o, s).

(** [try: body except <classes>: handler]: [handler e] is [None] for an
    exception class that no [except] clause names, which is then raised
    again. *)
Definition try_except {S A} (body : M S A) (handler : exn -> option (M S A))
  : M S A :=
  fun s =>
    match body s with
    | (Return a, s') => (Return a, s')
    | (Raise e, s') =>
        match handler e with
        | Some h => h s'
        | None => (Raise e, s')
        end
    end.

#[global] Instance M_ret {S} : MRet (M S) := fun _ a => ret a.
#[global] Instance M_bind {S} : MBind (M S) := fun _ _ k m => bind m k.

(** Truthiness, as [if x:] tests it. *)
Definition truthy_str (s : option string) : bool :=
  match s with
  | Some (String _ _) => true
  | _ => false
  end.

Definition truthy_float (x : option float) : bool :=
  match x with
  | Some f => negb (PrimFloat.eqb f 0%float)
  | None => false
  end.

(** [v != 200].  An int and a float compare by value, [True] is [1], and
    every other type differs from a number. *)
Definition ne_200 (v : value) : bool :=
  match v with
  | VInt z => negb (z =? 200)
  | VFloat f => negb (PrimFloat.eqb f 200%float)
  | _ => true
  end.

(** [d.get(k, dflt)]; only a dictionary has the method. *)
Definition dict_get {S} (v : value) (k : string) (dflt : value) : M S value :=
  match v with
  | VDict d => ret (default dflt (d !! k))
  | _ => raise AttributeError
  end.

(** [l[i]] on a sequence of length [n]: a negative index counts from the
    end, an index out of range is an [IndexError]. *)
Definition seq_index {A} (l : list A) (i : Z) : outcome A :=
  let n := Z.of_nat (length l) in
  let j := if i <? 0 then i + n else i in
  if (j <? 0) || (n <=? j) then Raise IndexError
  else match l !! Z.to_nat j with
       | Some x => Return x
       | None => Raise IndexError
       end.

(** [v[k]].  A dictionary decoded from JSON has string keys only, so an
    integer subscript is never found; a list or a string takes integer
    subscripts only; the other types are not subscriptable. *)
Definition getitem {S} (v : value) (k : key) : M S value :=
  match v, k with
  | VDict d, KStr s =>
      match d !! s with
      | Some x => ret x
      | None => raise (KeyError k)
      end
  | VDict _, KInt _ => raise (KeyError k)
  | VList l, KInt i => lift (seq_index l i)
  | VStr s, KInt i =>
      match seq_index (String.list_ascii_of_string s) i with
      | Return c => ret (VStr (String c EmptyString))
      | Raise e => raise e
      end
  | _, _ => raise TypeError
  end.

(** [repr] of a key, which is what [str(e)] is for a [KeyError].  The
    string case is exact for a key without quote, backslash or control
    character; the program subscripts with such literals only. *)
Definition repr_key (k : key) : string :=
  match k with
  | KStr s => "'" +:+ s +:+ "'"
  | KInt z => NilZero.string_of_int (Z.to_int z)
  end.

End Py.

(** ** [datetime.now().strftime("%Y-%m-%d %H:%M:%S")] *)

Module Clock.

(** The fields of a [datetime] that the format reads. *)
Record datetime : Type := {
  year : N; month : N; day : N;
  hour : N; minute : N; second : N
}.

(** The invariant of a [datetime] object, for a clock that reads a
    four-digit year. *)
Definition valid (t : datetime) : Prop :=
  (1000 <= year t <= 9999 /\ 1 <= month t <= 12 /\ 1 <= day t <= 31 /\
   hour t < 24 /\ minute t < 60 /\ second t < 60)%N.

Definition digit (n : N) : ascii := ascii_of_N (48 + n).

(** [%m], [%d], [%H], [%M], [%S]: two digits, zero-padded. *)
Definition pad2 (n : N) : string :=
  String (digit (n / 10)) (String (digit (n mod 10)) EmptyString).

(** [%Y]: the year in decimal, as the C library prints it. *)
Definition fmt_year (n : N) : string := NilZero.string_of_uint (N.to_uint n).

Definition strftime (t : datetime) : string :=
  fmt_year (year t) +:+ "-" +:+ pad2 (month t) +:+ "-" +:+ pad2 (day t)
  +:+ " " +:+ pad2 (hour t) +:+ ":" +:+ pad2 (minute t) +:+ ":" +:+ pad2 (second t).

(** The shape [YYYY-MM-DD HH:MM:SS], decided on the characters. *)
Definition is_digit (c : ascii) : bool :=
  let n := N_of_ascii c in (48 <=? n)%N && (n <=? 57)%N.

Definition num2 (a b : ascii) : N :=
  (10 * (N_of_ascii a - 48) + (N_of_ascii b - 48))%N.

Definition two_digits (lo hi : N) (a b : ascii) : bool :=
  is_digit a && is_digit b && (lo <=? num2 a b)%N && (num2 a b <=? hi)%N.

Definition well_formed_timestamp (s : string) : bool :=
  match String.list_ascii_of_string s with
  | [y1; y2; y3; y4; c1; m1; m2; c2; d1; d2; c3; h1; h2; c4; n1; n2; c5; s1; s2] =>
      is_digit y1 && is_digit y2 && is_digit y3 && is_digit y4
      && Ascii.eqb c1 "-" && two_digits 1 12 m1 m2
      && Ascii.eqb c2 "-" && two_digits 1 31 d1 d2
      && Ascii.eqb c3 " " && two_digits 0 23 h1 h2
      && Ascii.eqb c4 ":" && two_digits 0 59 n1 n2
      && Ascii.eqb c5 ":" && two_digits 0 59 s1 s2
  | _ => false
  end.

(** A year that prints as four digits. *)
Definition year_ok (y : N) : bool :=
  match String.list_ascii_of_string (fmt_year y) with
  | [a; b; c; d] => is_digit a && is_digit b && is_digit c && is_digit d
  | _ => false
  end.

End Clock.

(** ** class WeatherData *)

Module WeatherData.
Import Py.

Record t : Type := { api_key : string; base_url : string }.

(** [__init__] *)
Definition init (key : string) : t :=
  {| api_key := key;
     base_url := "https://api.openweathermap.org/data/2.5/weather" |}.

(** What [requests.get] hands back, as far as the method looks at it. *)
Record Response : Type := {
  raise_for_status : outcome unit;
  json : outcome value
}.

(** The dictionary [fetch_weather] returns on success. *)
Record Observation : Type := {
  city : value;
  temp : value;
  humidity : value;
  wind_speed : value;
  description : value;
  lat : value;
  lon : value;
  timestamp : string
}.

Section Fetch.

(** The world outside the program: the HTTP server behind
    [requests.get], the local clock, and [str] on a float (used only
    to print the coordinates into the URL). *)
Variable requests_get : string -> outcome Response.
Variable datetime_now : Clock.datetime.
Variable str_float : float -> string.

(** The state of the method is the list of URLs requested so far. *)
Definition get (url : string) : M (list string) Response :=
  fun sent => (requests_get url, sent ++ [url]).

(** The [if city: ... elif lat and lon: ... else:] that opens the
    method: the URL to request, or [None] in the [else] branch, which
    returns at once. *)
Definition request_url (self : t) (city : option string) (lat lon : option float)
  : option string :=
  if truthy_str city then
    Some (base_url self +:+ "?q=" +:+ default "" city
          +:+ "&appid=" +:+ api_key self +:+ "&units=metric")
  else if truthy_float lat && truthy_float lon then
    Some (base_url self +:+ "?lat=" +:+ from_option str_float "None" lat
          +:+ "&lon=" +:+ from_option str_float "None" lon
          +:+ "&appid=" +:+ api_key self +:+ "&units=metric")
  else None.

Definition fetch_weather (self : t) (city : option string) (lat lon : option float)
  : M (list string) (option Observation * value) :=
  try_except
    (match request_url self city lat lon with
     | None => mret (None, VStr "Please provide a city name or coordinates.")
     | Some url =>
         response ← get url;
         lift (raise_for_status response);;
         data ← lift (json response);
         cod ← dict_get data "cod" VNone;
         if ne_200 cod then
           message ← dict_get data "message" (VStr "Error fetching weather data.");
           mret (None, message)
         else
           name ← getitem data (KStr "name");
           main ← getitem data (KStr "main");
           temp ← getitem main (KStr "temp");
           main' ← getitem data (KStr "main");
           humidity ← getitem main' (KStr "humidity");
           wind ← getitem data (KStr "wind");
           speed ← getitem wind (KStr "speed");
           weather ← getitem data (KStr "weather");
           weather0 ← getitem weather (KInt 0);
           description ← getitem weather0 (KStr "description");
           coord ← getitem data (KStr "coord");
           c_lat ← getitem coord (KStr "lat");
           coord' ← getitem data (KStr "coord");
           c_lon ← getitem coord' (KStr "lon");
           mret (Some {| city := name; temp := temp; humidity := humidity;
                         wind_speed := speed; description := description;
                         lat := c_lat; lon := c_lon;
                         timestamp := Clock.strftime datetime_now |},
                 VNone)
     end)
    (fun e =>
       match e with
       | RequestException msg =>
           Some (mret (None, VStr ("Network error: " +:+ msg)))
       | KeyError k =>
           Some (mret (None, VStr ("Data parsing error: Missing key " +:+ repr_key k)))
       | _ => None
       end).

End Fetch.

End WeatherData.

(** ** class DatabaseManager *)

Module DatabaseManager.
Import Py.

(** A cell of a column: [None] is SQL NULL.  A parameter is bound with
    the storage class of its column; [bind_real] and [bind_integer]
    below say what sqlite3 makes of it. *)
Abbreviation TEXT := (option string).
Abbreviation REAL := (option float).
Abbreviation INTEGER := (option Z).

(** The two tables of [create_tables], rows in rowid order. *)
Record favorites_row : Type := {
  fav_id : Z;
  fav_city : TEXT;
  fav_lat : REAL;
  fav_lon : REAL
}.

Record history_row : Type := {
  h_id : Z;
  h_city : TEXT;
  h_temp : REAL;
  h_humidity : INTEGER;
  h_wind_speed : REAL;
  h_description : TEXT;
  h_timestamp : TEXT
}.

(** The object: the database behind [self.conn] (each table with the
    AUTOINCREMENT counter SQLite keeps for it) and [self.cursor.rowcount]. *)
Record t : Type := {
  favorites : list favorites_row;
  favorites_seq : Z;
  weather_history : list history_row;
  weather_history_seq : Z;
  rowcount : Z
}.

(** The argument of [save_weather_history]: the keys it reads. *)
Record weather_data : Type := {
  city : TEXT;
  temp : REAL;
  humidity : INTEGER;
  wind_speed : REAL;
  description : TEXT;
  timestamp : TEXT
}.

(** [__init__] on a fresh database: both tables created empty. *)
Definition init : t :=
  {| favorites := []; favorites_seq := 0;
     weather_history := []; weather_history_seq := 0; rowcount := -1 |}.

(** SQL [a = b] in a WHERE clause or a UNIQUE index on a TEXT column:
    byte-wise equality, and a NULL equals nothing. *)
Definition sql_eq (a b : TEXT) : bool :=
  match a, b with
  | Some x, Some y => String.eqb x y
  | _, _ => false
  end.

(** A float bound to a REAL column: SQLite keeps a NaN as NULL and a
    zero of either sign as [0.0]; every other number, the infinities
    included, reads back as it was written. *)
Definition bind_real (x : REAL) : REAL :=
  match x with
  | Some f =>
      if PrimFloat.is_nan f then None
      else if PrimFloat.eqb f 0%float then Some 0%float
      else Some f
  | None => None
  end.

(** An int bound to a column: sqlite3 takes what fits in 64 bits and
    raises [OverflowError] for the rest. *)
Definition bind_integer (x : INTEGER) : outcome INTEGER :=
  match x with
  | Some z =>
      if (- 2 ^ 63 <=? z) && (z <? 2 ^ 63) then Return (Some z)
      else Raise OverflowError
  | None => Return None
  end.

(** The rowid an AUTOINCREMENT table gives its next row: one more than
    the largest rowid the table ever held. *)
Definition next_rowid (seq : Z) (ids : list Z) : Z :=
  1 + foldr Z.max seq ids.

(** The table scan of a DELETE: the rows kept and the number deleted. *)
Fixpoint delete_where {A} (p : A -> bool) (rows : list A) : list A * Z :=
  match rows with
  | [] => ([], 0)
  | r :: rest =>
      let (kept, n) := delete_where p rest in
      if p r then (kept, n + 1) else (r :: kept, n)
  end.

(** The table scan of a SELECT: the result columns of the matching rows,
    in rowid order. *)
Fixpoint select_where {A B} (p : A -> bool) (cols : A -> B) (rows : list A)
  : list B :=
  match rows with
  | [] => []
  | r :: rest =>
      if p r then cols r :: select_where p cols rest
      else select_where p cols rest
  end.

(** [INSERT INTO favorites (city, lat, lon) VALUES (?, ?, ?)].  A NULL
    city violates NOT NULL and a city already stored violates UNIQUE;
    both raise [sqlite3.IntegrityError] and leave the table as it was.
    The row holds the coordinates as a REAL column keeps them. *)
Definition insert_favorite (city : TEXT) (lat lon : REAL) : M t unit :=
  fun self =>
    match city with
    | None =>
        (Raise IntegrityError,
         {| favorites := favorites self; favorites_seq := favorites_seq self;
            weather_history := weather_history self;
            weather_history_seq := weather_history_seq self; rowcount := -1 |})
    | Some _ =>
        if existsb (fun r => sql_eq (fav_city r) city) (favorites self) then
          (Raise IntegrityError,
           {| favorites := favorites self; favorites_seq := favorites_seq self;
              weather_history := weather_history self;
              weather_history_seq := weather_history_seq self; rowcount := -1 |})
        else
          let id := next_rowid (favorites_seq self) (fav_id <$> favorites self) in
          (Return tt,
           {| favorites := favorites self ++
                [{| fav_id := id; fav_city := city;
                    fav_lat := bind_real lat; fav_lon := bind_real lon |}];
              favorites_seq := id;
              weather_history := weather_history self;
              weather_history_seq := weather_history_seq self; rowcount := 1 |})
    end.

(** [DELETE FROM favorites WHERE city = ?] *)
Definition delete_favorite (city : TEXT) : M t unit :=
  fun self =>
    let (kept, n) := delete_where (fun r => sql_eq (fav_city r) city) (favorites self) in
    (Return tt,
     {| favorites := kept; favorites_seq := favorites_seq self;
        weather_history := weather_history self;
        weather_history_seq := weather_history_seq self; rowcount := n |}).

(** A SELECT followed by [fetchall]; the cursor reports no row count. *)
Definition select {B} (rows : t -> list B) : M t (list B) :=
  fun self =>
    (Return (rows self),
     {| favorites := favorites self; favorites_seq := favorites_seq self;
        weather_history := weather_history self;
        weather_history_seq := weather_history_seq self; rowcount := -1 |}).

(** [INSERT INTO weather_history (...) VALUES (?, ?, ?, ?, ?, ?)]: the
    table has no constraint besides its key.  The six parameters are
    bound first; a humidity that does not fit raises before any row is
    written. *)
Definition insert_history (w : weather_data) : M t unit :=
  fun self =>
    match bind_integer (humidity w) with
    | Raise e =>
        (Raise e,
         {| favorites := favorites self; favorites_seq := favorites_seq self;
            weather_history := weather_history self;
            weather_history_seq := weather_history_seq self; rowcount := -1 |})
    | Return h =>
        let id := next_rowid (weather_history_seq self) (h_id <$> weather_history self) in
        (Return tt,
         {| favorites := favorites self; favorites_seq := favorites_seq self;
            weather_history := weather_history self ++
              [{| h_id := id; h_city := city w; h_temp := bind_real (temp w);
                  h_humidity := h; h_wind_speed := bind_real (wind_speed w);
                  h_description := description w; h_timestamp := timestamp w |}];
            weather_history_seq := id; rowcount := 1 |})
    end.

(** [self.conn.commit()]: the one connection reads its own writes, so
    making them durable changes nothing a method can see. *)
Definition commit : M t unit := mret tt.

Definition get_rowcount : M t Z := fun self => (Return (rowcount self), self).

Definition add_favorite (city : TEXT) (lat lon : REAL) : M t (bool * string) :=
  try_except
    (insert_favorite city lat lon;;
     commit;;
     mret (true, "City added to favorites."))
    (fun e =>
       match e with
       | IntegrityError => Some (mret (false, "City already in favorites."))
       | _ => None
       end).

Definition remove_favorite (city : TEXT) : M t (bool * string) :=
  delete_favorite city;;
  commit;;
  n ← get_rowcount;
  n' ← get_rowcount;
  mret (n >? 0, if n' >? 0 then "City removed." else "City not found.").

Definition get_favorites : M t (list (TEXT * REAL * REAL)) :=
  select (fun self =>
    select_where (fun _ => true)
      (fun r => (fav_city r, fav_lat r, fav_lon r)) (favorites self)).

Definition save_weather_history (w : weather_data) : M t unit :=
  insert_history w;;
  commit.

Definition get_weather_history (city : TEXT)
  : M t (list (REAL * INTEGER * REAL * TEXT * TEXT)) :=
  select (fun self =>
    select_where (fun r => sql_eq (h_city r) city)
      (fun r => (h_temp r, h_humidity r, h_wind_speed r, h_description r, h_timestamp r))
      (weather_history self)).

End DatabaseManager.

(** ** Reading a field of a JSON document

    The specification speaks of the fields [name], [main.temp],
    [weather[0].description] and so on of the response.  [at_path] is
    that notion: an object is entered by a member name, an array by a
    position, and nothing else has fields. *)

Module Json.
Import Py.

Definition field (v : value) (k : key) : option value :=
  match v, k with
  | VDict d, KStr s => d !! s
  | VList l, KInt i => if 0 <=? i then l !! Z.to_nat i else None
  | _, _ => None
  end.

Fixpoint at_path (p : list key) (v : value) : option value :=
  match p with
  | [] => Some v
  | k :: p' =>
      match field v k with
      | Some x => at_path p' x
      | None => None
      end
  end.

(** The path of each field the method reads, under the name the
    specification gives it. *)
Definition path_of (name : string) : list key :=
  if String.eqb name "temp" then [KStr "main"; KStr "temp"]
  else if String.eqb name "humidity" then [KStr "main"; KStr "humidity"]
  else if String.eqb name "speed" then [KStr "wind"; KStr "speed"]
  else if String.eqb name "description" then [KStr "weather"; KInt 0; KStr "description"]
  else if String.eqb name "lat" then [KStr "coord"; KStr "lat"]
  else if String.eqb name "lon" then [KStr "coord"; KStr "lon"]
  else [KStr name].

Definition expected_fields : list string :=
  ["name"; "main"; "temp"; "humidity"; "wind"; "speed"; "weather";
   "description"; "coord"; "lat"; "lon"].

(** [cod == 200] on a decoded body: the integer 200, or a float of
    that value. *)
Definition cod_is_200 (d : gmap string value) : Prop :=
  match d !! "cod" with
  | Some (VInt z) => z = 200
  | Some (VFloat f) => PrimFloat.eqb f 200%float = true
  | _ => False
  end.

(** [cod != 200] on a decoded body, an absent [cod] being [None]. *)
Definition cod_differs (d : gmap string value) : Prop :=
  match d !! "cod" with
  | Some (VInt z) => z <> 200
  | Some (VFloat f) => PrimFloat.eqb f 200%float = false
  | _ => True
  end.

(** The containers of the documented response are of the documented
    kind wherever they are present: [main], [wind] and [coord] are
    objects, [weather] is an array that starts with an object. *)
Definition well_shaped (d : gmap string value) : Prop :=
  (forall v, d !! "main" = Some v -> exists m, v = VDict m)
  /\ (forall v, d !! "wind" = Some v -> exists m, v = VDict m)
  /\ (forall v, d !! "weather" = Some v -> exists w ws, v = VList (VDict w :: ws))
  /\ (forall v, d !! "coord" = Some v -> exists m, v = VDict m).

End Json.

(** ** Notions the properties of the store are stated with *)

Module StoreSpec.
Import DatabaseManager.

(** A row for [c] is in the favourites table. *)
Definition has_city (c : string) (self : t) : Prop :=
  exists r, r ∈ favorites self /\ fav_city r = Some c.


(** The columns [get_weather_history] selects. *)
Definition history_cols (r : history_row) : REAL * INTEGER * REAL * TEXT * TEXT :=
  (h_temp r, h_humidity r, h_wind_speed r, h_description r, h_timestamp r).

(** The calls a client can make, and the stores they lead to from a
    fresh one. *)
Inductive call : Type :=
  | AddFavorite (city : TEXT) (lat lon : REAL)
  | RemoveFavorite (city : TEXT)
  | GetFavorites
  | SaveWeatherHistory (w : weather_data)
  | GetWeatherHistory (city : TEXT).

Definition exec (c : call) (self : t) : t :=
  match c with
  | AddFavorite city lat lon => snd (add_favorite city lat lon self)
  | RemoveFavorite city => snd (remove_favorite city self)
  | GetFavorites => snd (get_favorites self)
  | SaveWeatherHistory w => snd (save_weather_history w self)
  | GetWeatherHistory city => snd (get_weather_history city self)
  end.

Inductive reachable : t -> Prop :=
  | reachable_init : reachable init
  | reachable_exec (c : call) (self : t) :
      reachable self -> reachable (exec c self).

(** The constraints of the favourites table: [city] is NOT NULL and
    UNIQUE, [id] is a key below the AUTOINCREMENT counter. *)
Definition favorites_ok (self : t) : Prop :=
  Forall (fun r => fav_city r <> None) (favorites self)
  /\ NoDup (fav_city <$> favorites self)
  /\ NoDup (fav_id <$> favorites self)
  /\ Forall (fun r => (fav_id r <= favorites_seq self)%Z) (favorites self).

End StoreSpec.

(** ** Concrete responses and stores, from the tests and the specification *)

Module Examples.
Import Py WeatherData.

(** A server that answers every request with the same decoded body. *)
Definition serve (body : value) (url : string) : outcome Response :=
  Return {| raise_for_status := Return tt; json := Return body |}.

Definition noon : Clock.datetime :=
  {| Clock.year := 2025; Clock.month := 6; Clock.day := 13;
     Clock.hour := 12; Clock.minute := 0; Clock.second := 0 |}.

Definition obj (members : list (string * value)) : value :=
  VDict (list_to_map members).

(** The body of [test_fetch_weather_success]. *)
Definition lahore_members : gmap string value :=
  list_to_map
    [("cod", VInt 200); ("name", VStr "Lahore");
     ("main", obj [("temp", VInt 30); ("humidity", VInt 50)]);
     ("wind", obj [("speed", VInt 2)]);
     ("weather", VList [obj [("description", VStr "clear sky")]]);
     ("coord", obj [("lat", VFloat 31.5); ("lon", VFloat 74.3)])].

Definition lahore : value := VDict lahore_members.

(** The body of [test_fetch_weather_error]. *)
Definition not_found : gmap string value :=
  list_to_map [("cod", VInt 404); ("message", VStr "city not found")].

(** The report for Lahore with an empty [weather] array. *)
Definition no_weather : value :=
  obj [("cod", VInt 200); ("name", VStr "Lahore");
       ("main", obj [("temp", VInt 30); ("humidity", VInt 50)]);
       ("wind", obj [("speed", VInt 2)]);
       ("weather", VList []);
       ("coord", obj [("lat", VFloat 31.5); ("lon", VFloat 74.3)])].

(** An empty [weather] array and no [coord] member at all. *)
Definition no_weather_no_coord : value :=
  obj [("cod", VInt 200); ("name", VStr "Lahore");
       ("main", obj [("temp", VInt 30); ("humidity", VInt 50)]);
       ("wind", obj [("speed", VInt 2)]);
       ("weather", VList [])].

Definition lahore_url : string :=
  "https://api.openweathermap.org/data/2.5/weather?q=Lahore&appid=dummy_key&units=metric".

(** [str] of a float is not needed where the request names a city. *)
Definition no_str (x : float) : string := "".

(** [add_favorite("Lahore", 31.5, 74.3)] on a fresh store. *)
Definition with_lahore : DatabaseManager.t :=
  snd (DatabaseManager.add_favorite (Some "Lahore") (Some 31.5%float) (Some 74.3%float)
         DatabaseManager.init).

(** The observation of [test_save_and_get_weather_history], its
    numbers in the storage classes of their columns. *)
Definition lahore_obs : DatabaseManager.weather_data :=
  {| DatabaseManager.city := Some "Lahore";
     DatabaseManager.temp := Some 30%float;
     DatabaseManager.humidity := Some 50;
     DatabaseManager.wind_speed := Some 2%float;
     DatabaseManager.description := Some "clear sky";
     DatabaseManager.timestamp := Some "2025-06-13 12:00:00" |}.


End Examples.

(** ** Python strings and truth values, as the application uses them

    A string is its sequence of characters, each below 256. *)

Module PyStr.
Import Py.

(** [c.isspace()] for a character below 256: the ASCII white space,
    the four separators 28 to 31, NEL and the no-break space. *)
Definition isspace (c : ascii) : bool :=
  let n := N_of_ascii c in
  ((9 <=? n) && (n <=? 13) || (28 <=? n) && (n <=? 32) || (n =? 133) || (n =? 160))%N.

Fixpoint lstrip (s : string) : string :=
  match s with
  | String c s' => if isspace c then lstrip s' else s
  | EmptyString => EmptyString
  end.

Fixpoint rstrip (s : string) : string :=
  match s with
  | String c s' =>
      match rstrip s' with
      | EmptyString => if isspace c then EmptyString else String c EmptyString
      | r => String c r
      end
  | EmptyString => EmptyString
  end.

(** [s.strip()] *)
Definition strip (s : string) : string := rstrip (lstrip s).

(** [s.split(sep)[0]] for a non-empty [sep]: what stands before the
    first occurrence of [sep], or all of [s] if there is none. *)
Fixpoint split_head (sep s : string) : string :=
  match s with
  | String c s' =>
      if String.prefix sep s then EmptyString else String c (split_head sep s')
  | EmptyString => EmptyString
  end.

(** The truth value of an object, as [if error:] tests it. *)
Definition truthy (v : value) : bool :=
  match v with
  | VNone => false
  | VBool b => b
  | VInt z => negb (z =? 0)
  | VFloat f => negb (PrimFloat.eqb f 0%float)
  | VStr s => match s with EmptyString => false | String _ _ => true end
  | VList l => match l with [] => false | _ :: _ => true end
  | VDict d => match map_to_list d with [] => false | _ :: _ => true end
  end.

(** [sub in s] *)
Definition contains (sub s : string) : Prop :=
  exists a b, s = a +:+ sub +:+ b.

(** A string of white space only (the empty string is one). *)
Fixpoint blank (s : string) : bool :=
  match s with
  | String c s' => isspace c && blank s'
  | EmptyString => true
  end.

(** The first and the last character, if any. *)
Definition first_char (s : string) : option ascii :=
  match s with
  | String c _ => Some c
  | EmptyString => None
  end.

Fixpoint last_char (s : string) : option ascii :=
  match s with
  | String c EmptyString => Some c
  | String _ s' => last_char s'
  | EmptyString => None
  end.

End PyStr.

(** ** class WeatherApp

    The widgets are modelled by what the handlers read and write: the
    text of the entry, the text of the label, the lines of the listbox
    with the indices selected, the charts packed into the canvas frame,
    and the message boxes shown so far.  The requests sent belong to the
    world and are carried along. *)

Module WeatherApp.
Import Py PyStr.

Inductive dialog : Type :=
  | showerror (title : string) (message : value)
  | showinfo (title : string) (message : value).

(** What [show_history_graph] hands to the plotting library: the title
    and the three lists of the two [ax.plot] calls.  The library is
    taken to draw what it is handed, so that the chart reaches the
    canvas. *)
Record figure : Type := {
  title : string;
  timestamps : list DatabaseManager.TEXT;
  temps : list DatabaseManager.REAL;
  humidities : list DatabaseManager.INTEGER
}.

Record t : Type := {
  weather_data : WeatherData.t;
  db : DatabaseManager.t;
  sent : list string;
  city_entry : string;
  weather_label : string;
  favorites_listbox : list string;
  curselection : list nat;
  canvas_frame : list figure;
  dialogs : list dialog
}.

(** A method of [self.db], run on the store inside the application. *)
Definition on_db {A} (m : M DatabaseManager.t A) : M t A :=
  fun self =>
    let (o, d) := m (db self) in
    (o, {| weather_data := weather_data self; db := d; sent := sent self;
           city_entry := city_entry self; weather_label := weather_label self;
           favorites_listbox := favorites_listbox self;
           curselection := curselection self;
           canvas_frame := canvas_frame self; dialogs := dialogs self |}).

(** A method of [self.weather_data], run on the requests sent. *)
Definition on_net {A} (m : WeatherData.t -> M (list string) A) : M t A :=
  fun self =>
    let (o, l) := m (weather_data self) (sent self) in
    (o, {| weather_data := weather_data self; db := db self; sent := l;
           city_entry := city_entry self; weather_label := weather_label self;
           favorites_listbox := favorites_listbox self;
           curselection := curselection self;
           canvas_frame := canvas_frame self; dialogs := dialogs self |}).

(** [messagebox.showerror] and [messagebox.showinfo] *)
Definition messagebox (d : dialog) : M t unit :=
  fun self =>
    (Return tt,
     {| weather_data := weather_data self; db := db self; sent := sent self;
        city_entry := city_entry self; weather_label := weather_label self;
        favorites_listbox := favorites_listbox self;
        curselection := curselection self;
        canvas_frame := canvas_frame self; dialogs := dialogs self ++ [d] |}).

(** [self.weather_label.config(text=text)] *)
Definition label_config (text : string) : M t unit :=
  fun self =>
    (Return tt,
     {| weather_data := weather_data self; db := db self; sent := sent self;
        city_entry := city_entry self; weather_label := text;
        favorites_listbox := favorites_listbox self;
        curselection := curselection self;
        canvas_frame := canvas_frame self; dialogs := dialogs self |}).

(** [self.favorites_listbox.delete(0, tk.END)]: no line is left, and so
    none is selected. *)
Definition listbox_delete_all : M t unit :=
  fun self =>
    (Return tt,
     {| weather_data := weather_data self; db := db self; sent := sent self;
        city_entry := city_entry self; weather_label := weather_label self;
        favorites_listbox := []; curselection := [];
        canvas_frame := canvas_frame self; dialogs := dialogs self |}).

(** [self.favorites_listbox.insert(tk.END, line)] *)
Definition listbox_insert_end (line : string) : M t unit :=
  fun self =>
    (Return tt,
     {| weather_data := weather_data self; db := db self; sent := sent self;
        city_entry := city_entry self; weather_label := weather_label self;
        favorites_listbox := favorites_listbox self ++ [line];
        curselection := curselection self;
        canvas_frame := canvas_frame self; dialogs := dialogs self |}).

(** The children of the canvas frame are destroyed and the new chart
    is packed. *)
Definition canvas_replace (fig : figure) : M t unit :=
  fun self =>
    (Return tt,
     {| weather_data := weather_data self; db := db self; sent := sent self;
        city_entry := city_entry self; weather_label := weather_label self;
        favorites_listbox := favorites_listbox self;
        curselection := curselection self;
        canvas_frame := [fig]; dialogs := dialogs self |}).

Definition gets {A} (f : t -> A) : M t A := fun self => (Return (f self), self).

(** [self.favorites_listbox.get(i)]: the line, or the empty string
    where there is none. *)
Definition listbox_get (i : nat) : M t string :=
  fun self => (Return (default EmptyString (favorites_listbox self !! i)), self).

(** [for x in l: body] *)
Fixpoint for_each {S A} (l : list A) (body : A -> M S unit) : M S unit :=
  match l with
  | [] => mret tt
  | x :: l' => body x;; for_each l' body
  end.

(** [weather[...]] where [weather] may be [None]. *)
Definition subscript (weather : option WeatherData.Observation)
  : M t WeatherData.Observation :=
  match weather with
  | Some w => mret w
  | None => raise TypeError
  end.

(** The loop of [show_history_graph] that fills the three lists. *)
Definition collect
    (history : list (DatabaseManager.REAL * DatabaseManager.INTEGER *
                     DatabaseManager.REAL * DatabaseManager.TEXT *
                     DatabaseManager.TEXT))
  : list DatabaseManager.REAL * list DatabaseManager.INTEGER *
    list DatabaseManager.TEXT :=
  fold_left
    (fun acc row =>
       let '(temps, humidities, timestamps) := acc in
       let '(temp, humidity, _, _, timestamp) := row in
       (temps ++ [temp], humidities ++ [humidity], timestamps ++ [timestamp]))
    history ([], [], []).

Section Handlers.

(** The world and the library functions the handlers rely on: the
    server, the clock, [str] of a float, [str] of a list or dictionary,
    [str.capitalize], and the two methods of [DatabaseManager] that
    receive values of the response (the conversion of such a value
    into a cell is sqlite3's). *)
Variable requests_get : string -> outcome WeatherData.Response.
Variable datetime_now : Clock.datetime.
Variable str_float : float -> string.
Variable str_container : value -> string.
Variable capitalize : string -> string.
Variable db_add_favorite : value -> value -> value -> M DatabaseManager.t (bool * string).
Variable db_save_weather_history : WeatherData.Observation -> M DatabaseManager.t unit.

(** [f"{v}"] *)
Definition format_value (v : value) : string :=
  match v with
  | VNone => "None"
  | VBool true => "True"
  | VBool false => "False"
  | VInt z => NilZero.string_of_int (Z.to_int z)
  | VFloat f => str_float f
  | VStr s => s
  | _ => str_container v
  end.

Definition format_text (c : DatabaseManager.TEXT) : string :=
  match c with
  | Some s => s
  | None => "None"
  end.

Definition format_real (x : DatabaseManager.REAL) : string :=
  match x with
  | Some f => str_float f
  | None => "None"
  end.

(** [f"{city} ({lat}, {lon})"] *)
Definition favorite_line (row : DatabaseManager.TEXT * DatabaseManager.REAL *
                                DatabaseManager.REAL) : string :=
  let '(city, lat, lon) := row in
  format_text city +:+ " (" +:+ format_real lat +:+ ", " +:+ format_real lon +:+ ")".

Definition fetch (city : string) : M t (option WeatherData.Observation * value) :=
  on_net (fun wd =>
    WeatherData.fetch_weather requests_get datetime_now str_float wd
      (Some city) None None).

Definition display_weather (weather : option WeatherData.Observation) : M t unit :=
  w ← subscript weather;
  description ← match WeatherData.description w with
                | VStr s => mret (capitalize s)
                | _ => raise AttributeError
                end;
  label_config
    ("City: " +:+ format_value (WeatherData.city w) +:+ String "010" (
     "Temperature: " +:+ format_value (WeatherData.temp w)
       +:+ String "176" ("C" +:+ String "010" (
     "Humidity: " +:+ format_value (WeatherData.humidity w) +:+ "%" +:+ String "010" (
     "Wind Speed: " +:+ format_value (WeatherData.wind_speed w) +:+ " m/s"
       +:+ String "010" (
     "Description: " +:+ description +:+ String "010" (
     "Time: " +:+ WeatherData.timestamp w))))))).

Definition update_favorites_list : M t unit :=
  listbox_delete_all;;
  favorites ← on_db DatabaseManager.get_favorites;
  for_each favorites (fun row => listbox_insert_end (favorite_line row)).

Definition search_weather : M t unit :=
  entry ← gets city_entry;
  let city := strip entry in
  if negb (truthy (VStr city)) then
    messagebox (showerror "Error" (VStr "Please enter a city name."))
  else
    '(weather, error) ← fetch city;
    if truthy error then messagebox (showerror "Error" error)
    else
      display_weather weather;;
      w ← subscript weather;
      on_db (db_save_weather_history w).

Definition search_weather_event : M t unit := search_weather.

Definition add_to_favorites : M t unit :=
  entry ← gets city_entry;
  let city := strip entry in
  if negb (truthy (VStr city)) then
    messagebox (showerror "Error" (VStr "Please enter a city name."))
  else
    '(weather, error) ← fetch city;
    if truthy error then messagebox (showerror "Error" error)
    else
      w ← subscript weather;
      '(success, message) ←
        on_db (db_add_favorite (WeatherData.city w) (WeatherData.lat w)
                 (WeatherData.lon w));
      messagebox (showinfo "Result" (VStr message));;
      if success : bool then update_favorites_list else mret tt.

Definition remove_favorite : M t unit :=
  selection ← gets curselection;
  match selection with
  | [] => messagebox (showerror "Error" (VStr "Please select a city to remove."))
  | i :: _ =>
      line ← listbox_get i;
      let city := split_head " (" line in
      '(success, message) ← on_db (DatabaseManager.remove_favorite (Some city));
      messagebox (showinfo "Result" (VStr message));;
      if success : bool then update_favorites_list else mret tt
  end.

Definition show_favorite_weather : M t unit :=
  selection ← gets curselection;
  match selection with
  | [] => mret tt
  | i :: _ =>
      line ← listbox_get i;
      let city := split_head " (" line in
      '(weather, error) ← fetch city;
      if truthy error then messagebox (showerror "Error" error)
      else
        display_weather weather;;
        w ← subscript weather;
        on_db (db_save_weather_history w)
  end.

Definition show_history_graph : M t unit :=
  selection ← gets curselection;
  match selection with
  | [] => messagebox (showerror "Error" (VStr "Please select a city to view history."))
  | i :: _ =>
      line ← listbox_get i;
      let city := split_head " (" line in
      history ← on_db (DatabaseManager.get_weather_history (Some city));
      match history with
      | [] => messagebox (showinfo "Info"
                            (VStr ("No weather history for " +:+ city +:+ ".")))
      | _ :: _ =>
          let '(temps, humidities, timestamps) := collect history in
          canvas_replace {| title := "Weather History for " +:+ city;
                            timestamps := timestamps; temps := temps;
                            humidities := humidities |}
      end
  end.

End Handlers.

End WeatherApp.

(** ** Notions the properties of the application are stated with *)

Module AppSpec.
Import Py PyStr WeatherApp.

(** The lines the listbox shows for the favourites of a store. *)
Definition lines_of (str_float : float -> string) (d : DatabaseManager.t)
  : list string :=
  (fun r => favorite_line str_float
              (DatabaseManager.fav_city r, DatabaseManager.fav_lat r,
               DatabaseManager.fav_lon r))
    <$> DatabaseManager.favorites d.

(** The listbox shows the stored favourites. *)
Definition synced (str_float : float -> string) (self : t) : Prop :=
  favorites_listbox self = lines_of str_float (db self).

(** The application with another store, listbox and selection. *)
Definition with_store (self : t) (d : DatabaseManager.t) : t :=
  {| weather_data := weather_data self; db := d; sent := sent self;
     city_entry := city_entry self; weather_label := weather_label self;
     favorites_listbox := favorites_listbox self;
     curselection := curselection self;
     canvas_frame := canvas_frame self; dialogs := dialogs self |}.

Definition with_listbox (self : t) (lines : list string) (selection : list nat) : t :=
  {| weather_data := weather_data self; db := db self; sent := sent self;
     city_entry := city_entry self; weather_label := weather_label self;
     favorites_listbox := lines; curselection := selection;
     canvas_frame := canvas_frame self; dialogs := dialogs self |}.

Definition with_dialog (self : t) (d : dialog) : t :=
  {| weather_data := weather_data self; db := db self; sent := sent self;
     city_entry := city_entry self; weather_label := weather_label self;
     favorites_listbox := favorites_listbox self;
     curselection := curselection self;
     canvas_frame := canvas_frame self; dialogs := dialogs self ++ [d] |}.

Definition with_sent (self : t) (l : list string) : t :=
  {| weather_data := weather_data self; db := db self; sent := l;
     city_entry := city_entry self; weather_label := weather_label self;
     favorites_listbox := favorites_listbox self;
     curselection := curselection self;
     canvas_frame := canvas_frame self; dialogs := dialogs self |}.

Definition with_label (self : t) (text : string) : t :=
  {| weather_data := weather_data self; db := db self; sent := sent self;
     city_entry := city_entry self; weather_label := text;
     favorites_listbox := favorites_listbox self;
     curselection := curselection self;
     canvas_frame := canvas_frame self; dialogs := dialogs self |}.

Definition with_canvas (self : t) (figs : list figure) : t :=
  {| weather_data := weather_data self; db := db self; sent := sent self;
     city_entry := city_entry self; weather_label := weather_label self;
     favorites_listbox := favorites_listbox self;
     curselection := curselection self;
     canvas_frame := figs; dialogs := dialogs self |}.


(** The URL of a query by city name. *)
Definition city_url (wd : WeatherData.t) (city : string) : string :=
  WeatherData.base_url wd +:+ "?q=" +:+ city +:+ "&appid="
  +:+ WeatherData.api_key wd +:+ "&units=metric".

(** The rows of the history table stored for a city. *)
Definition history_rows (city : string) (d : DatabaseManager.t)
  : list DatabaseManager.history_row :=
  filter (fun r => DatabaseManager.h_city r = Some city)
    (DatabaseManager.weather_history d).

(** The line selected in the listbox, as the handlers read it. *)
Definition selected_line (self : t) : option string :=
  match curselection self with
  | [] => None
  | i :: _ => Some (default EmptyString (favorites_listbox self !! i))
  end.

End AppSpec.

(** ** Concrete worlds and application states *)

Module Scenarios.
Import Py PyStr WeatherApp AppSpec Examples.

(** A server that cannot be reached. *)
Definition unreachable (url : string) : outcome WeatherData.Response :=
  Raise (RequestException "connection refused").

(** A body with [cod] 200 and a name but no other member. *)
Definition name_only : gmap string value :=
  list_to_map [("cod", VInt 200); ("name", VStr "Lahore")].

(** A failure the provider reports with an empty message. *)
Definition silent_failure : gmap string value :=
  list_to_map [("cod", VInt 404); ("message", VStr "")].

(** A store that receives values of a response.  sqlite3 binds [None]
    as NULL, an [int] or a [bool] as a 64-bit integer ([OverflowError]
    when it does not fit), a [float] as a double and a [str] as text,
    and raises for a list or a dictionary; SQLite then converts the
    value to the affinity of the column where it can: an integer to
    its decimal text in a TEXT column and to the nearest double in a
    REAL column.  The values SQLite keeps with another storage class
    than the column's, for which the tables of this model have no
    cell (a float in a TEXT or INTEGER column, a text in a numeric
    column), are not covered: this store is defined on them so as to
    be total, by [no_cell], and no property is stated about it
    there. *)
Definition no_cell {A} : outcome A := Raise ValueError.

(** [(double) z] for a 64-bit [z], rounded to nearest even. *)
Definition real_of_int (z : Z) : float :=
  if z =? - 2 ^ 63 then (-9223372036854775808)%float
  else if z <? 0 then PrimFloat.opp (PrimFloat.of_uint63 (Uint63.of_Z (- z)))
  else PrimFloat.of_uint63 (Uint63.of_Z z).

Definition int_of_bool (b : bool) : Z := if b then 1 else 0.

Definition text_cell (v : value) : outcome DatabaseManager.TEXT :=
  match v with
  | VNone => Return None
  | VStr s => Return (Some s)
  | VInt z =>
      match DatabaseManager.bind_integer (Some z) with
      | Return _ => Return (Some (NilZero.string_of_int (Z.to_int z)))
      | Raise e => Raise e
      end
  | VBool b => Return (Some (NilZero.string_of_int (Z.to_int (int_of_bool b))))
  | VFloat f => if PrimFloat.is_nan f then Return None else no_cell
  | VList _ | VDict _ => Raise InterfaceError
  end.

Definition real_cell (v : value) : outcome DatabaseManager.REAL :=
  match v with
  | VNone => Return None
  | VFloat f => Return (Some f)
  | VInt z =>
      match DatabaseManager.bind_integer (Some z) with
      | Return _ => Return (Some (real_of_int z))
      | Raise e => Raise e
      end
  | VBool b => Return (Some (real_of_int (int_of_bool b)))
  | VStr _ => no_cell
  | VList _ | VDict _ => Raise InterfaceError
  end.

Definition integer_cell (v : value) : outcome DatabaseManager.INTEGER :=
  match v with
  | VNone => Return None
  | VInt z => DatabaseManager.bind_integer (Some z)
  | VBool b => Return (Some (int_of_bool b))
  | VFloat f => if PrimFloat.is_nan f then Return None else no_cell
  | VStr _ => no_cell
  | VList _ | VDict _ => Raise InterfaceError
  end.

Definition add_cells (city lat lon : value)
  : M DatabaseManager.t (bool * string) :=
  c ← lift (text_cell city);
  a ← lift (real_cell lat);
  b ← lift (real_cell lon);
  DatabaseManager.add_favorite c a b.

Definition save_cells (w : WeatherData.Observation) : M DatabaseManager.t unit :=
  c ← lift (text_cell (WeatherData.city w));
  t ← lift (real_cell (WeatherData.temp w));
  h ← lift (integer_cell (WeatherData.humidity w));
  s ← lift (real_cell (WeatherData.wind_speed w));
  d ← lift (text_cell (WeatherData.description w));
  DatabaseManager.save_weather_history
    {| DatabaseManager.city := c; DatabaseManager.temp := t;
       DatabaseManager.humidity := h; DatabaseManager.wind_speed := s;
       DatabaseManager.description := d;
       DatabaseManager.timestamp := Some (WeatherData.timestamp w) |}.




(** The application over a store, the entry holding [entry], the
    listbox showing the favourites of the store, the lines of
    [selection] selected. *)
Definition app (d : DatabaseManager.t) (entry : string) (selection : list nat) : t :=
  {| weather_data := WeatherData.init "dummy_key"; db := d; sent := [];
     city_entry := entry; weather_label := EmptyString;
     favorites_listbox := lines_of no_str d; curselection := selection;
     canvas_frame := []; dialogs := [] |}.

(** A store whose only favourite has [" ("] in its name. *)
Definition with_paren : DatabaseManager.t :=
  snd (DatabaseManager.add_favorite (Some "Foo (Bar)") None None DatabaseManager.init).

(** The store with Lahore as favourite and one observation saved. *)
Definition with_history : DatabaseManager.t :=
  snd (DatabaseManager.save_weather_history lahore_obs with_lahore).

Definition lahore_row : DatabaseManager.favorites_row :=
  {| DatabaseManager.fav_id := 1; DatabaseManager.fav_city := Some "Lahore";
     DatabaseManager.fav_lat := Some 31.5%float;
     DatabaseManager.fav_lon := Some 74.3%float |}.

Definition paren_row : DatabaseManager.favorites_row :=
  {| DatabaseManager.fav_id := 1; DatabaseManager.fav_city := Some "Foo (Bar)";
     DatabaseManager.fav_lat := None; DatabaseManager.fav_lon := None |}.

End Scenarios.

(** ** Notions the further properties are stated with *)

Module Effects.
Import Py.

(** A computation that leaves the state alone. *)
Definition stateless {S A} (m : M S A) : Prop := forall s, snd (m s) = s.

(** The requests a call adds to those sent before: none or one. *)
Definition requested (url : option string) : list string :=
  match url with
  | Some u => [u]
  | None => []
  end.

End Effects.

Module Traces.
Import DatabaseManager StoreSpec.

(** A sequence of calls, made one after the other. *)
Fixpoint run (cs : list call) (self : t) : t :=
  match cs with
  | [] => self
  | c :: cs' => run cs' (exec c self)
  end.

(** The rows [get_weather_history] returns for a city. *)
Definition history_of (c : string) (self : t)
  : list (REAL * INTEGER * REAL * TEXT * TEXT) :=
  match fst (get_weather_history (Some c) self) with
  | Py.Return rows => rows
  | Py.Raise _ => []
  end.

End Traces.

(** ** Properties of the timestamp format *)

Module ClockFacts.
Import Clock.

Lemma digit_spec (n : N) :
  (n < 10)%N -> is_digit (digit n) = true /\ (N_of_ascii (digit n) - 48 = n)%N.
Proof.
  intros Hn.
  assert (Hc : n = N.of_nat (N.to_nat n)) by lia.
  assert (Hlt : (N.to_nat n < 10)%nat) by lia.
  rewrite Hc. clear Hc Hn.
  generalize dependent (N.to_nat n). intros k Hk.
  do 10 (destruct k as [|k]; [split; reflexivity|]).
  lia.
Qed.

Lemma two_digits_pad2 (lo hi n : N) :
  (lo <= n <= hi)%N -> (n < 100)%N ->
  two_digits lo hi (digit (n / 10)) (digit (n mod 10)) = true.
Proof.
  intros Hr Hn.
  assert (Hq : (n / 10 < 10)%N) by (apply N.Div0.div_lt_upper_bound; lia).
  assert (Hm : (n mod 10 < 10)%N) by (apply N.mod_upper_bound; lia).
  destruct (digit_spec _ Hq) as [Dq Vq], (digit_spec _ Hm) as [Dm Vm].
  unfold two_digits, num2. rewrite Dq, Dm, Vq, Vm.
  assert (E : (10 * (n / 10) + n mod 10 = n)%N)
    by (symmetry; apply N.div_mod; lia).
  rewrite E. simpl.
  apply andb_true_intro; split; apply N.leb_le; lia.
Qed.

(** The years 1000 to 9999, one by one. *)
Lemma year_ok_all :
  forallb (fun i => year_ok (1000 + N.of_nat i)) (seq 0 (N.to_nat 9000)) = true.
Proof. vm_compute. reflexivity. Qed.

Lemma fmt_year_shape (y : N) :
  (1000 <= y <= 9999)%N ->
  exists a b c d,
    fmt_year y = String a (String b (String c (String d EmptyString)))
    /\ is_digit a && is_digit b && is_digit c && is_digit d = true.
Proof.
  intros Hy.
  assert (Hin : In (N.to_nat (y - 1000)) (seq 0 (N.to_nat 9000)))
    by (apply in_seq; lia).
  pose proof (proj1 (forallb_forall _ _) year_ok_all _ Hin) as Hok.
  cbv beta in Hok.
  replace (1000 + N.of_nat (N.to_nat (y - 1000)))%N with y in Hok by lia.
  unfold year_ok in Hok.
  rewrite <- (String.string_of_list_ascii_of_string (fmt_year y)).
  destruct (String.list_ascii_of_string (fmt_year y))
    as [|a [|b [|c [|d [|e l]]]]]; try discriminate.
  exists a, b, c, d. split; [reflexivity | exact Hok].
Qed.

(** A valid clock reading prints as [YYYY-MM-DD HH:MM:SS]. *)
Lemma strftime_well_formed (t : datetime) :
  valid t -> well_formed_timestamp (strftime t) = true.
Proof.
  intros (Hy & Hmo & Hd & Hh & Hmi & Hs).
  destruct (fmt_year_shape _ Hy) as (a & b & c & d & Ey & Dy).
  unfold strftime, pad2. rewrite Ey.
  unfold well_formed_timestamp.
  cbv [String.append String.list_ascii_of_string].
  rewrite Dy.
  rewrite (two_digits_pad2 1 12), (two_digits_pad2 1 31), (two_digits_pad2 0 23),
    (two_digits_pad2 0 59), (two_digits_pad2 0 59) by lia.
  reflexivity.
Qed.

End ClockFacts.

(** ** Properties of [fetch_weather] *)

Module FetchFacts.
Import Py Json WeatherData Examples.

(** A field that is there is what the subscript returns. *)
Lemma getitem_field {S} (v x : value) (k : key) (s : S) :
  field v k = Some x -> getitem v k s = (Return x, s).
Proof.
  destruct v, k; simpl; try discriminate.
  - unfold lift, seq_index. destruct (0 <=? z) eqn:Hz; [|discriminate].
    intros Hx. apply Z.leb_le in Hz.
    pose proof (lookup_lt_Some _ _ _ Hx) as Hlen.
    cbv zeta.
    destruct (z <? 0) eqn:E1; [apply Z.ltb_lt in E1; lia|].
    destruct (Z.of_nat (length l) <=? z) eqn:E2; [apply Z.leb_le in E2; lia|].
    cbv iota. rewrite E1. simpl. rewrite Hx. reflexivity.
  - intros ->. reflexivity.
Qed.

(** A member that a dictionary lacks is a [KeyError] naming it. *)
Lemma getitem_missing {S} (d : gmap string value) (k : string) (s : S) :
  d !! k = None -> getitem (VDict d) (KStr k) s = (Raise (KeyError (KStr k)), s).
Proof. intros H. simpl. rewrite H. reflexivity. Qed.

Lemma at_path_1 (v x : value) (a : key) :
  at_path [a] v = Some x -> field v a = Some x.
Proof. simpl. destruct (field v a); [auto | discriminate]. Qed.

Lemma at_path_2 (v x : value) (a b : key) :
  at_path [a; b] v = Some x ->
  exists y, field v a = Some y /\ field y b = Some x.
Proof.
  simpl. destruct (field v a) as [y|] eqn:Ea; [|discriminate].
  destruct (field y b) eqn:Eb; [|discriminate].
  intros [= ->]. exists y. auto.
Qed.

Lemma at_path_3 (v x : value) (a b c : key) :
  at_path [a; b; c] v = Some x ->
  exists y z, field v a = Some y /\ field y b = Some z /\ field z c = Some x.
Proof.
  simpl. destruct (field v a) as [y|] eqn:Ea; [|discriminate].
  destruct (field y b) as [z|] eqn:Eb; [|discriminate].
  destruct (field z c) eqn:Ec; [|discriminate].
  intros [= ->]. exists y, z. auto.
Qed.

Lemma field_dict (v x : value) (k : string) :
  field v (KStr k) = Some x -> exists d, v = VDict d /\ d !! k = Some x.
Proof. destruct v; simpl; try discriminate. eauto. Qed.

(** The two ways the comparison [cod != 200] goes. *)
Lemma cod_is_200_eq (d : gmap string value) :
  cod_is_200 d -> ne_200 (default VNone (d !! "cod")) = false.
Proof.
  unfold cod_is_200.
  destruct (d !! "cod") as [[]|]; simpl; try contradiction.
  - intros ->. reflexivity.
  - intros ->. reflexivity.
Qed.

Lemma cod_differs_ne (d : gmap string value) :
  cod_differs d -> ne_200 (default VNone (d !! "cod")) = true.
Proof.
  unfold cod_differs.
  destruct (d !! "cod") as [[]|]; simpl; try reflexivity.
  - intros Hz. apply negb_true_iff, Z.eqb_neq, Hz.
  - intros ->. reflexivity.
Qed.

Section World.

Variable requests_get : string -> outcome Response.
Variable datetime_now : Clock.datetime.
Variable str_float : float -> string.

Abbreviation fetch := (fetch_weather requests_get datetime_now str_float).

(** The method up to the decoded body: one request, sent to [url]. *)
Lemma fetch_weather_body (self : t) city lat lon url resp data sent :
  request_url str_float self city lat lon = Some url ->
  requests_get url = Return resp ->
  raise_for_status resp = Return tt ->
  json resp = Return data ->
  fetch self city lat lon sent =
  try_except
    (cod ← dict_get data "cod" VNone;
     if ne_200 cod then
       message ← dict_get data "message" (VStr "Error fetching weather data.");
       mret (None, message)
     else
       name ← getitem data (KStr "name");
       main ← getitem data (KStr "main");
       temp ← getitem main (KStr "temp");
       main' ← getitem data (KStr "main");
       humidity ← getitem main' (KStr "humidity");
       wind ← getitem data (KStr "wind");
       speed ← getitem wind (KStr "speed");
       weather ← getitem data (KStr "weather");
       weather0 ← getitem weather (KInt 0);
       description ← getitem weather0 (KStr "description");
       coord ← getitem data (KStr "coord");
       c_lat ← getitem coord (KStr "lat");
       coord' ← getitem data (KStr "coord");
       c_lon ← getitem coord' (KStr "lon");
       mret (Some {| city := name; temp := temp; humidity := humidity;
                     wind_speed := speed; description := description;
                     lat := c_lat; lon := c_lon;
                     timestamp := Clock.strftime datetime_now |},
             VNone))
    (fun e =>
       match e with
       | RequestException msg =>
           Some (mret (None, VStr ("Network error: " +:+ msg)))
       | KeyError k =>
           Some (mret (None, VStr ("Data parsing error: Missing key " +:+ repr_key k)))
       | _ => None
       end)
    (sent ++ [url]).
Proof.
  intros Hurl Hget Hst Hjson.
  unfold fetch_weather at 1. rewrite Hurl.
  unfold try_except, mbind, M_bind, bind, get, lift.
  rewrite Hget, Hst, Hjson. reflexivity.
Qed.

(** One step of the extraction: the subscript finds its field. *)
#[local] Arguments getitem : simpl never.
#[local] Arguments Clock.strftime : simpl never.

Ltac found :=
  erewrite getitem_field by eassumption; cbn.

Ltac run_monad :=
  unfold try_except, mbind, M_bind, bind, mret, M_ret, dict_get, ret, raise;
  cbv beta iota.

(** C1: a response with [cod] 200 and the fields [name], [main.temp],
    [main.humidity], [wind.speed], [weather[0].description], [coord.lat]
    and [coord.lon] present makes [fetch_weather] return an observation
    and no error; the observation carries exactly those fields, and its
    timestamp has the shape [YYYY-MM-DD HH:MM:SS] (the clock reading a
    valid date with a four-digit year). *)
Theorem fetch_weather_success (self : t) city lat lon url resp d sent
    name temp humidity speed description c_lat c_lon :
  request_url str_float self city lat lon = Some url ->
  requests_get url = Return resp ->
  raise_for_status resp = Return tt ->
  json resp = Return (VDict d) ->
  Clock.valid datetime_now ->
  cod_is_200 d ->
  at_path [KStr "name"] (VDict d) = Some name ->
  at_path [KStr "main"; KStr "temp"] (VDict d) = Some temp ->
  at_path [KStr "main"; KStr "humidity"] (VDict d) = Some humidity ->
  at_path [KStr "wind"; KStr "speed"] (VDict d) = Some speed ->
  at_path [KStr "weather"; KInt 0; KStr "description"] (VDict d) = Some description ->
  at_path [KStr "coord"; KStr "lat"] (VDict d) = Some c_lat ->
  at_path [KStr "coord"; KStr "lon"] (VDict d) = Some c_lon ->
  exists obs,
    fetch self city lat lon sent = (Return (Some obs, VNone), sent ++ [url])
    /\ WeatherData.city obs = name
    /\ WeatherData.temp obs = temp
    /\ WeatherData.humidity obs = humidity
    /\ WeatherData.wind_speed obs = speed
    /\ WeatherData.description obs = description
    /\ WeatherData.lat obs = c_lat
    /\ WeatherData.lon obs = c_lon
    /\ Clock.well_formed_timestamp (WeatherData.timestamp obs) = true.
Proof.
  intros Hurl Hget Hst Hjson Hclock Hcod Hname Htemp Hhum Hspeed Hdesc Hlat Hlon.
  apply at_path_1 in Hname.
  apply at_path_2 in Htemp as (main & Hmain & Htemp).
  apply at_path_2 in Hhum as (main' & Hmain' & Hhum).
  apply at_path_2 in Hspeed as (wind & Hwind & Hspeed).
  apply at_path_3 in Hdesc as (weather & weather0 & Hweather & Hweather0 & Hdesc).
  apply at_path_2 in Hlat as (coord & Hcoord & Hlat).
  apply at_path_2 in Hlon as (coord' & Hcoord' & Hlon).
  assert (main' = main) as -> by congruence.
  assert (coord' = coord) as -> by congruence.
  apply cod_is_200_eq in Hcod.
  eexists.
  rewrite (fetch_weather_body self city lat lon url resp (VDict d) sent) by assumption.
  run_monad. rewrite Hcod.
  do 14 found.
  split; [reflexivity|].
  cbn [WeatherData.city WeatherData.temp WeatherData.humidity WeatherData.wind_speed
       WeatherData.description WeatherData.lat WeatherData.lon WeatherData.timestamp].
  repeat (split; [reflexivity|]).
  apply ClockFacts.strftime_well_formed, Hclock.
Qed.

(** Without a URL to request the method answers at once and sends
    nothing. *)
Lemma fetch_weather_no_request (self : t) city lat lon sent :
  request_url str_float self city lat lon = None ->
  fetch self city lat lon sent =
  (Return (None, VStr "Please provide a city name or coordinates."), sent).
Proof.
  intros Hurl. unfold fetch_weather, try_except. rewrite Hurl. reflexivity.
Qed.

(** C3: called with no city and without a full coordinate pair, the
    method returns no data and the (non-empty) usage message, and the
    list of requests sent is as it was: no network call is made. *)
Theorem fetch_weather_usage_error (self : t) (lat lon : option float) sent :
  lat = None \/ lon = None ->
  fetch self None lat lon sent =
    (Return (None, VStr "Please provide a city name or coordinates."), sent)
  /\ "Please provide a city name or coordinates." <> "".
Proof.
  intros Hpair. split; [|discriminate].
  apply fetch_weather_no_request. unfold request_url. simpl.
  destruct Hpair as [-> | ->]; simpl; [reflexivity|].
  destruct (truthy_float lat); reflexivity.
Qed.

(** C7: when the decoded body is an object whose [cod] is not 200, the
    method returns no data and, as the error, the body's [message]
    member, or the generic text if there is none.  A body with [cod]
    404 and [message] "city not found" thus gives the error
    "city not found". *)
Theorem fetch_weather_provider_error (self : t) city lat lon url resp d sent :
  request_url str_float self city lat lon = Some url ->
  requests_get url = Return resp ->
  raise_for_status resp = Return tt ->
  json resp = Return (VDict d) ->
  (cod_differs d ->
     (forall m, d !! "message" = Some m ->
        fetch self city lat lon sent = (Return (None, m), sent ++ [url]))
     /\ (d !! "message" = None ->
        fetch self city lat lon sent =
          (Return (None, VStr "Error fetching weather data."), sent ++ [url])))
  /\ (d !! "cod" = Some (VInt 404) ->
      d !! "message" = Some (VStr "city not found") ->
      fetch self city lat lon sent =
        (Return (None, VStr "city not found"), sent ++ [url])).
Proof.
  intros Hurl Hget Hst Hjson.
  rewrite (fetch_weather_body self city lat lon url resp (VDict d) sent) by assumption.
  split.
  - intros Hcod. apply cod_differs_ne in Hcod.
    split; [intros m Hm | intros Hm]; run_monad; rewrite Hcod, Hm; reflexivity.
  - intros Hcod Hm. run_monad. rewrite Hcod, Hm. reflexivity.
Qed.

(** C9: a coordinate pair with latitude or longitude exactly 0 is taken
    for a missing pair.  With no city, latitude 0.0 and longitude 74.3
    the method returns the usage message and requests nothing; so it
    does whenever either coordinate is zero. *)
Theorem fetch_weather_zero_coordinate (self : t) sent :
  fetch self None (Some 0%float) (Some 74.3%float) sent =
    (Return (None, VStr "Please provide a city name or coordinates."), sent)
  /\ (forall x : option float,
        fetch self None (Some 0%float) x sent =
          (Return (None, VStr "Please provide a city name or coordinates."), sent)
        /\ fetch self None x (Some 0%float) sent =
          (Return (None, VStr "Please provide a city name or coordinates."), sent)).
Proof.
  assert (H0 : truthy_float (Some 0%float) = false) by reflexivity.
  split; [|intros x; split];
    apply fetch_weather_no_request; unfold request_url;
    cbn [truthy_str]; rewrite H0; rewrite ?andb_false_r; reflexivity.
Qed.

(** Rewriting with the lookups at hand, and the case of a member that
    the extraction misses. *)
Ltac rewrite_lookups :=
  repeat (match goal with H : _ !! _ = _ |- _ => rewrite H end; cbn);
  try (change (Z.to_nat 0) with 0%nat; cbn;
       repeat (match goal with H : _ !! _ = _ |- _ => rewrite H end; cbn)).

Ltac missing k :=
  exists k; split; [apply list_elem_of_In; simpl; tauto|];
  split; [cbn; rewrite_lookups; reflexivity|];
  erewrite fetch_weather_body by eassumption; run_monad;
  match goal with H : ne_200 _ = false |- _ => rewrite H end; cbn;
  repeat (erewrite getitem_field by (eassumption || reflexivity); cbn);
  erewrite getitem_missing by eassumption; reflexivity.

(** In a body with [cod] 200 whose containers are well shaped, an
    absent field is reported by a data-parsing error that names an
    absent field: the first one the extraction misses. *)
Theorem fetch_weather_missing_key (self : t) city lat lon url resp d sent :
  request_url str_float self city lat lon = Some url ->
  requests_get url = Return resp ->
  raise_for_status resp = Return tt ->
  json resp = Return (VDict d) ->
  cod_is_200 d ->
  well_shaped d ->
  (exists f, f ∈ expected_fields /\ at_path (path_of f) (VDict d) = None) ->
  exists k,
    k ∈ expected_fields
    /\ at_path (path_of k) (VDict d) = None
    /\ fetch self city lat lon sent =
       (Return (None, VStr ("Data parsing error: Missing key '" +:+ k +:+ "'")),
        sent ++ [url]).
Proof.
  intros Hurl Hget Hst Hjson Hcod (Smain & Swind & Sweather & Scoord) Hmiss.
  apply cod_is_200_eq in Hcod.
  destruct (d !! "name") as [name|] eqn:Hname; [|missing "name"].
  destruct (d !! "main") as [vmain|] eqn:Hmain; [|missing "main"].
  destruct (Smain _ eq_refl) as (main & ->).
  destruct (main !! "temp") as [temp|] eqn:Htemp; [|missing "temp"].
  destruct (main !! "humidity") as [humidity|] eqn:Hhum; [|missing "humidity"].
  destruct (d !! "wind") as [vwind|] eqn:Hwind; [|missing "wind"].
  destruct (Swind _ eq_refl) as (wind & ->).
  destruct (wind !! "speed") as [speed|] eqn:Hspeed; [|missing "speed"].
  destruct (d !! "weather") as [vweather|] eqn:Hweather; [|missing "weather"].
  destruct (Sweather _ eq_refl) as (w0 & ws & ->).
  destruct (w0 !! "description") as [description|] eqn:Hdesc; [|missing "description"].
  destruct (d !! "coord") as [vcoord|] eqn:Hcoord; [|missing "coord"].
  destruct (Scoord _ eq_refl) as (coord & ->).
  destruct (coord !! "lat") as [c_lat|] eqn:Hlat; [|missing "lat"].
  destruct (coord !! "lon") as [c_lon|] eqn:Hlon; [|missing "lon"].
  exfalso. destruct Hmiss as (f & Hin & Hnone).
  apply list_elem_of_In in Hin. simpl in Hin.
  repeat (destruct Hin as [<- | Hin];
          [cbn in Hnone;
           repeat (first [ match goal with
                           | H : _ !! _ = _ |- _ => rewrite H in Hnone
                           end
                         | progress change (Z.to_nat 0) with 0%nat in Hnone ];
                   cbn in Hnone);
           discriminate|]).
  exact Hin.
Qed.

End World.

(** *** The properties on the responses of the tests *)

(** The response of [test_fetch_weather_success]. *)
Lemma fetch_weather_success_lahore :
  exists obs,
    fetch_weather (serve lahore) noon no_str (init "dummy_key")
      (Some "Lahore") None None [] = (Return (Some obs, VNone), [] ++ [lahore_url])
    /\ WeatherData.city obs = VStr "Lahore"
    /\ WeatherData.temp obs = VInt 30
    /\ WeatherData.humidity obs = VInt 50
    /\ WeatherData.wind_speed obs = VInt 2
    /\ WeatherData.description obs = VStr "clear sky"
    /\ WeatherData.lat obs = VFloat 31.5
    /\ WeatherData.lon obs = VFloat 74.3
    /\ Clock.well_formed_timestamp (WeatherData.timestamp obs) = true.
Proof.
  apply (fetch_weather_success (serve lahore) noon no_str (init "dummy_key")
           (Some "Lahore") None None lahore_url
           {| raise_for_status := Return tt; json := Return lahore |}
           lahore_members []);
    try reflexivity.
  unfold Clock.valid, noon; simpl; lia.
Defined.

(** No city and no longitude. *)
Lemma fetch_weather_usage_error_no_lon :
  fetch_weather (serve lahore) noon no_str (init "dummy_key")
    None (Some 31.5%float) None [] =
    (Return (None, VStr "Please provide a city name or coordinates."), [])
  /\ "Please provide a city name or coordinates." <> "".
Proof.
  apply (fetch_weather_usage_error (serve lahore) noon no_str (init "dummy_key")
           (Some 31.5%float) None []).
  right. reflexivity.
Defined.

(** The response of [test_fetch_weather_error]. *)
Lemma cod_differs_not_found : cod_differs not_found.
Proof. vm_compute. discriminate. Defined.

Lemma fetch_weather_provider_error_404 :
  (fetch_weather (serve (VDict not_found)) noon no_str (init "dummy_key")
     (Some "Lahore") None None [] =
     (Return (None, VStr "city not found"), [] ++ [lahore_url]))
  /\ (not_found !! "cod" = Some (VInt 404) ->
      not_found !! "message" = Some (VStr "city not found") ->
      fetch_weather (serve (VDict not_found)) noon no_str (init "dummy_key")
        (Some "Lahore") None None [] =
        (Return (None, VStr "city not found"), [] ++ [lahore_url])).
Proof.
  pose proof (fetch_weather_provider_error (serve (VDict not_found)) noon no_str
                (init "dummy_key") (Some "Lahore") None None lahore_url
                {| raise_for_status := Return tt; json := Return (VDict not_found) |}
                not_found [] eq_refl eq_refl eq_refl eq_refl) as [Hgen H404].
  split; [|exact H404].
  exact (proj1 (Hgen cod_differs_not_found) (VStr "city not found") eq_refl).
Defined.

(** A body with [cod] 200 and a name but nothing else: the first
    member the extraction misses is reported. *)
Example fetch_weather_missing_main :
  fetch_weather (serve (obj [("cod", VInt 200); ("name", VStr "Lahore")])) noon no_str
    (init "dummy_key") (Some "Lahore") None None [] =
  (Return (None, VStr "Data parsing error: Missing key 'main'"), [lahore_url]).
Proof. reflexivity. Qed.

(** Two non-zero coordinates are sent as a coordinate query. *)
Example request_url_coordinates :
  request_url (fun _ => "<float>") (init "dummy_key") None
    (Some 31.5%float) (Some 74.3%float) =
  Some "https://api.openweathermap.org/data/2.5/weather?lat=<float>&lon=<float>&appid=dummy_key&units=metric".
Proof. reflexivity. Qed.

(** C2: with every member in place but an empty [weather] array, the
    subscript [data["weather"][0]] raises [IndexError], which neither
    [except] clause catches: the exception leaves the method.  A [main]
    member that is a number leaves it as a [TypeError]. *)
Theorem fetch_weather_raises (now : Clock.datetime) (str_float : float -> string)
    (self : t) (sent : list string) :
  fst (fetch_weather (serve no_weather) now str_float self
         (Some "Lahore") None None sent) = Raise IndexError
  /\ fst (fetch_weather (serve (obj [("cod", VInt 200); ("name", VStr "Lahore");
                                    ("main", VInt 30)])) now str_float self
            (Some "Lahore") None None sent) = Raise TypeError.
Proof. split; reflexivity. Qed.

(** C8: a body with [cod] 200 that has no [coord] member (so that
    [coord], [lat] and [lon] are absent) and an empty [weather] array
    does not yield a data-parsing error: the method raises [IndexError]
    before it looks for [coord]. *)
Theorem fetch_weather_absent_field_raises (now : Clock.datetime)
    (str_float : float -> string) (self : t) (sent : list string) :
  at_path [KStr "cod"] no_weather_no_coord = Some (VInt 200)
  /\ at_path (path_of "coord") no_weather_no_coord = None
  /\ at_path (path_of "lat") no_weather_no_coord = None
  /\ at_path (path_of "lon") no_weather_no_coord = None
  /\ at_path (path_of "description") no_weather_no_coord = None
  /\ fst (fetch_weather (serve no_weather_no_coord) now str_float self
            (Some "Lahore") None None sent) = Raise IndexError.
Proof. repeat split; reflexivity. Qed.

End FetchFacts.

(** ** Properties of the store *)

Module StoreFacts.
Import Py DatabaseManager StoreSpec Examples.

Lemma sql_eq_Some (a : TEXT) (c : string) : sql_eq a (Some c) = true <-> a = Some c.
Proof.
  destruct a as [x|]; simpl; [|split; discriminate].
  rewrite String.eqb_eq. split; [intros ->; reflexivity | intros [= ->]; reflexivity].
Qed.

Lemma sql_eq_None (a : TEXT) : sql_eq a None = false.
Proof. destruct a; reflexivity. Qed.

Lemma existsb_has_city (c : string) (self : t) :
  existsb (fun r => sql_eq (fav_city r) (Some c)) (favorites self) = true
  <-> has_city c self.
Proof.
  unfold has_city. rewrite existsb_exists.
  split; intros (r & Hin & Hr); exists r.
  - apply list_elem_of_In in Hin. rewrite <- sql_eq_Some. auto.
  - apply list_elem_of_In in Hin. rewrite sql_eq_Some. auto.
Qed.

(** The scans, as filters. *)
Lemma delete_where_filter {A} (p : A -> bool) (rows : list A) :
  delete_where p rows =
  (filter (fun r => p r = false) rows,
   Z.of_nat (length (filter (fun r => p r = true) rows))).
Proof.
  induction rows as [|r rows IH]; [reflexivity|].
  simpl. rewrite IH. rewrite !filter_cons.
  destruct (p r) eqn:E.
  - rewrite decide_False by discriminate. rewrite decide_True by reflexivity.
    simpl. f_equal. lia.
  - rewrite decide_True by reflexivity. rewrite decide_False by discriminate.
    reflexivity.
Qed.

Lemma select_where_filter {A B} (p : A -> bool) (cols : A -> B) (rows : list A) :
  select_where p cols rows = cols <$> filter (fun r => p r = true) rows.
Proof.
  induction rows as [|r rows IH]; [reflexivity|].
  simpl. rewrite IH, filter_cons.
  destruct (p r) eqn:E.
  - rewrite decide_True by reflexivity. reflexivity.
  - rewrite decide_False by discriminate. reflexivity.
Qed.

Lemma select_where_all {A B} (cols : A -> B) (rows : list A) :
  select_where (fun _ => true) cols rows = cols <$> rows.
Proof.
  induction rows as [|r rows IH]; [reflexivity|].
  simpl. rewrite IH. reflexivity.
Qed.

Lemma select_where_app {A B} (p : A -> bool) (cols : A -> B) (l1 l2 : list A) :
  select_where p cols (l1 ++ l2) = select_where p cols l1 ++ select_where p cols l2.
Proof.
  induction l1 as [|r l1 IH]; [reflexivity|].
  simpl. rewrite IH. destruct (p r); reflexivity.
Qed.

(** A DELETE counts a row exactly when some row matches. *)
Lemma deleted_positive {A} (p : A -> bool) (rows : list A) :
  (snd (delete_where p rows) >? 0) = true <-> exists r, r ∈ rows /\ p r = true.
Proof.
  rewrite delete_where_filter. simpl. rewrite Z.gtb_gt.
  split.
  - intros Hn. destruct (filter (fun r => p r = true) rows) as [|r l] eqn:E;
      [simpl in Hn; lia|].
    assert (Hr : r ∈ filter (fun r => p r = true) rows) by (rewrite E; left).
    apply list_elem_of_filter in Hr as [Hp Hin]. exists r. auto.
  - intros (r & Hin & Hp).
    assert (Hr : r ∈ filter (fun r => p r = true) rows)
      by (apply list_elem_of_filter; auto).
    destruct (filter (fun r => p r = true) rows); [inversion Hr | simpl; lia].
Qed.

Ltac run_store :=
  unfold try_except, mbind, M_bind, bind, commit, get_rowcount, mret, M_ret, ret;
  cbv beta iota.

(** What [get_favorites] returns. *)
Lemma get_favorites_rows (self : t) :
  fst (get_favorites self) =
  Return ((fun r => (fav_city r, fav_lat r, fav_lon r)) <$> favorites self).
Proof. unfold get_favorites, select. simpl. rewrite select_where_all. reflexivity. Qed.

(** What a REAL cell keeps of a float: all of it, unless the float is
    a NaN or a zero. *)
Lemma bind_real_number (f : float) :
  PrimFloat.is_nan f = false -> PrimFloat.eqb f 0%float = false ->
  bind_real (Some f) = Some f.
Proof. intros Hn Hz. unfold bind_real. rewrite Hn, Hz. reflexivity. Qed.

Lemma bind_real_idempotent (x : REAL) : bind_real (bind_real x) = bind_real x.
Proof.
  destruct x as [f|]; [|reflexivity]. unfold bind_real.
  destruct (PrimFloat.is_nan f) eqn:Hn; [reflexivity|].
  destruct (PrimFloat.eqb f 0%float) eqn:Hz; [reflexivity|].
  rewrite Hn, Hz. reflexivity.
Qed.

(** C4 (as amended): adding a city that is already a favourite returns
    [(False, "City already in favorites.")] and leaves the table as it
    was; adding a city that is not returns [True] with the message
    "City added to favorites.", appends one row holding the city and
    both coordinates as SQLite stores them (a NaN as NULL, a zero as
    [0.0], any other number unchanged), and [get_favorites] then lists
    that entry; it lists [(city, lat, lon)] itself when both
    coordinates are stored as written. *)
Theorem add_favorite_spec (self : t) (c : string) (lat lon : REAL) :
  (has_city c self ->
     exists self',
       add_favorite (Some c) lat lon self =
         (Return (false, "City already in favorites."), self')
       /\ favorites self' = favorites self)
  /\ (~ has_city c self ->
     exists self',
       add_favorite (Some c) lat lon self =
         (Return (true, "City added to favorites."), self')
       /\ (exists id, favorites self' = favorites self ++
             [{| fav_id := id; fav_city := Some c;
                 fav_lat := bind_real lat; fav_lon := bind_real lon |}])
       /\ (exists rows, fst (get_favorites self') = Return rows
                        /\ (Some c, bind_real lat, bind_real lon) ∈ rows
                        /\ (bind_real lat = lat -> bind_real lon = lon ->
                            (Some c, lat, lon) ∈ rows))).
Proof.
  split; intros Hc.
  - apply existsb_has_city in Hc.
    unfold add_favorite, insert_favorite. run_store. rewrite Hc.
    eexists. split; reflexivity.
  - assert (He : existsb (fun r => sql_eq (fav_city r) (Some c)) (favorites self) = false).
    { destruct (existsb _ _) eqn:E; [|reflexivity].
      apply existsb_has_city in E. contradiction. }
    unfold add_favorite, insert_favorite. run_store. rewrite He.
    eexists. split; [reflexivity|]. split.
    + eexists. reflexivity.
    + eexists. split; [apply get_favorites_rows|].
      cbn [favorites]. rewrite fmap_app.
      assert (Hin : (Some c, bind_real lat, bind_real lon) ∈
                    ((fun r => (fav_city r, fav_lat r, fav_lon r)) <$> favorites self) ++
                    ((fun r => (fav_city r, fav_lat r, fav_lon r)) <$>
                       [{| fav_id := next_rowid (favorites_seq self)
                                       (fav_id <$> favorites self);
                           fav_city := Some c; fav_lat := bind_real lat;
                           fav_lon := bind_real lon |}]))
        by (apply elem_of_app; right; left).
      split; [exact Hin|]. intros Hla Hlo.
      apply elem_of_app; right. rewrite Hla, Hlo. left.
Qed.

(** C4 fails as stated: a NaN latitude is stored as NULL, so after a
    successful [add_favorite] the list holds [("X", None, 1.0)] and not
    the entry that was passed. *)
Lemma add_favorite_nan :
  fst (add_favorite (Some "X") (Some PrimFloat.nan) (Some 1%float) init) =
    Return (true, "City added to favorites.")
  /\ fst (get_favorites
            (snd (add_favorite (Some "X") (Some PrimFloat.nan) (Some 1%float) init))) =
     Return [(Some "X", None, Some 1%float)]
  /\ (Some "X", Some PrimFloat.nan, Some 1%float) ∉ [(Some "X", None, Some 1%float)].
Proof.
  split; [reflexivity|]. split; [reflexivity|].
  intros H. apply list_elem_of_singleton in H. discriminate H.
Qed.

(** C10: a NULL city, which no row can hold, is rejected by NOT NULL
    with the same exception as a duplicate: the method returns
    [(False, "City already in favorites.")] and inserts nothing. *)
Theorem add_favorite_null_city (self : t) (lat lon : REAL) :
  exists self',
    add_favorite None lat lon self =
      (Return (false, "City already in favorites."), self')
    /\ favorites self' = favorites self
    /\ existsb (fun r => sql_eq (fav_city r) None) (favorites self) = false.
Proof.
  eexists. split; [reflexivity|]. split; [reflexivity|].
  induction (favorites self) as [|r l IH]; [reflexivity|].
  simpl. rewrite sql_eq_None. exact IH.
Qed.

(** C5: [remove_favorite] returns [(True, "City removed.")] exactly when
    a row for the city was there and [(False, "City not found.")]
    exactly when none was; afterwards no row for the city is left, the
    other rows are kept in order, [get_favorites] does not list the
    city, and a second removal returns [False]. *)
Theorem remove_favorite_spec (self : t) (c : string) :
  exists b msg self',
    remove_favorite (Some c) self = (Return (b, msg), self')
    /\ (b = true /\ msg = "City removed." <-> has_city c self)
    /\ (b = false /\ msg = "City not found." <-> ~ has_city c self)
    /\ favorites self' = filter (fun r => fav_city r <> Some c) (favorites self)
    /\ ~ has_city c self'
    /\ (exists rows, fst (get_favorites self') = Return rows
                     /\ forall lat lon, (Some c, lat, lon) ∉ rows)
    /\ fst (remove_favorite (Some c) self') = Return (false, "City not found.").
Proof.
  set (p := fun r => sql_eq (fav_city r) (Some c)).
  assert (Hpos : forall s : t,
             (snd (delete_where p (favorites s)) >? 0) = true <-> has_city c s).
  { intros s. rewrite deleted_positive. unfold has_city, p.
    split; intros (r & Hin & Hr); exists r; split; auto; apply sql_eq_Some; auto. }
  assert (Hrun : forall s : t,
             remove_favorite (Some c) s =
             (Return (snd (delete_where p (favorites s)) >? 0,
                      if snd (delete_where p (favorites s)) >? 0
                      then "City removed." else "City not found."),
              {| favorites := fst (delete_where p (favorites s));
                 favorites_seq := favorites_seq s;
                 weather_history := weather_history s;
                 weather_history_seq := weather_history_seq s;
                 rowcount := snd (delete_where p (favorites s)) |})).
  { intros s. unfold remove_favorite, delete_favorite. run_store. fold p.
    destruct (delete_where p (favorites s)). reflexivity. }
  assert (Hkept : fst (delete_where p (favorites self)) =
                  filter (fun r => fav_city r <> Some c) (favorites self)).
  { rewrite delete_where_filter. simpl. apply list_filter_iff. intros r. unfold p.
    rewrite <- not_true_iff_false, sql_eq_Some. reflexivity. }
  assert (Hgone : forall s : t,
             favorites s = filter (fun r => fav_city r <> Some c) (favorites self) ->
             ~ has_city c s).
  { intros s Hs (r & Hin & Hr). rewrite Hs in Hin.
    apply list_elem_of_filter in Hin as [Hne _]. contradiction. }
  do 3 eexists. split; [apply Hrun|].
  split; [|split; [|split; [exact Hkept|split; [|split]]]].
  - rewrite <- Hpos. destruct (_ >? 0); intuition congruence.
  - rewrite <- Hpos. destruct (_ >? 0); intuition congruence.
  - apply Hgone. exact Hkept.
  - eexists. split; [apply get_favorites_rows|].
    intros lat lon Hin. cbn [favorites] in Hin. rewrite Hkept in Hin.
    apply list_elem_of_fmap in Hin as (r & Hr & Hin).
    apply list_elem_of_filter in Hin as [Hne _]. congruence.
  - rewrite Hrun. cbn [fst favorites].
    destruct (snd (delete_where p (fst (delete_where p (favorites self)))) >? 0) eqn:E;
      [|reflexivity].
    exfalso.
    apply (Hgone {| favorites := fst (delete_where p (favorites self));
                    favorites_seq := 0; weather_history := [];
                    weather_history_seq := 0; rowcount := 0 |}); [exact Hkept|].
    apply Hpos. exact E.
Qed.

Lemma get_weather_history_rows (self : t) (c : string) :
  fst (get_weather_history (Some c) self) =
  Return (history_cols <$> filter (fun r => h_city r = Some c) (weather_history self)).
Proof.
  unfold get_weather_history, select. simpl. fold history_cols.
  rewrite select_where_filter. do 2 f_equal.
  apply list_filter_iff. intros r. apply sql_eq_Some.
Qed.

(** A NULL city equals nothing in SQL: asking for the history of [None]
    returns no row. *)
Lemma get_weather_history_null (self : t) :
  fst (get_weather_history None self) = Return [].
Proof.
  unfold get_weather_history, select. simpl. f_equal.
  induction (weather_history self) as [|r l IH]; [reflexivity|].
  simpl. rewrite sql_eq_None. exact IH.
Qed.






(** *** The constraints hold in every store the methods produce *)

Lemma foldr_max_ge (seq : Z) (ids : list Z) :
  seq <= foldr Z.max seq ids /\ Forall (fun i => i <= foldr Z.max seq ids) ids.
Proof.
  induction ids as [|i ids [IH1 IH2]]; simpl; [split; [lia | constructor]|].
  split; [lia|]. constructor; [lia|].
  eapply Forall_impl; [exact IH2|]. simpl. intros; lia.
Qed.

Lemma next_rowid_fresh (self : t) :
  favorites_seq self < next_rowid (favorites_seq self) (fav_id <$> favorites self)
  /\ next_rowid (favorites_seq self) (fav_id <$> favorites self)
     ∉ (fav_id <$> favorites self).
Proof.
  unfold next_rowid.
  destruct (foldr_max_ge (favorites_seq self) (fav_id <$> favorites self)) as [H1 H2].
  split; [lia|]. intros Hin.
  rewrite Forall_forall in H2. specialize (H2 _ Hin). lia.
Qed.

Lemma favorites_ok_filter (P : favorites_row -> Prop) `{forall r, Decision (P r)}
    (rows : list favorites_row) (seq : Z) :
  Forall (fun r => fav_city r <> None) rows ->
  NoDup (fav_city <$> rows) ->
  NoDup (fav_id <$> rows) ->
  Forall (fun r => fav_id r <= seq) rows ->
  Forall (fun r => fav_city r <> None) (filter P rows)
  /\ NoDup (fav_city <$> filter P rows)
  /\ NoDup (fav_id <$> filter P rows)
  /\ Forall (fun r => fav_id r <= seq) (filter P rows).
Proof.
  intros Hnn Hc Hi Hle.
  assert (Hsub : filter P rows `sublist_of` rows) by apply sublist_filter.
  assert (Hall : forall Q : favorites_row -> Prop,
             Forall Q rows -> Forall Q (filter P rows)).
  { intros Q HQ. rewrite Forall_forall in HQ |- *.
    intros r Hr. apply list_elem_of_filter in Hr as [_ Hr]. auto. }
  split; [apply Hall, Hnn|]. split; [|split; [|apply Hall, Hle]].
  - apply (sublist_NoDup _ _ Hc). apply fmap_sublist, Hsub.
  - apply (sublist_NoDup _ _ Hi). apply fmap_sublist, Hsub.
Qed.

(** The invariant of the data model: in every reachable store the
    favourite cities are non-NULL and pairwise distinct. *)
Theorem reachable_favorites_ok (self : t) : reachable self -> favorites_ok self.
Proof.
  induction 1 as [|c self Hreach (Hnn & Hc & Hi & Hle)].
  - repeat split; simpl; constructor.
  - destruct c as [city lat lon | city | | w | city]; simpl.
    + unfold add_favorite, insert_favorite. run_store.
      destruct city as [c|]; [|repeat split; assumption].
      destruct (existsb _ _) eqn:E; [repeat split; assumption|].
      destruct (next_rowid_fresh self) as [Hlt Hfresh].
      unfold favorites_ok. cbn [snd favorites favorites_seq].
      rewrite !fmap_app. cbn [fmap list_fmap fav_city fav_id].
      split; [|split; [|split]].
      * apply Forall_app. split; [exact Hnn|]. repeat constructor. discriminate.
      * apply NoDup_app. split; [exact Hc|]. split; [|apply NoDup_singleton].
        intros x Hx Hx'. apply list_elem_of_singleton in Hx'. subst x.
        apply list_elem_of_fmap in Hx as (r & Hr & Hin).
        assert (Hex : existsb (fun r => sql_eq (fav_city r) (Some c)) (favorites self) = true).
        { apply existsb_has_city. exists r. auto. }
        congruence.
      * apply NoDup_app. split; [exact Hi|]. split; [|apply NoDup_singleton].
        intros x Hx Hx'. apply list_elem_of_singleton in Hx'. subst x. contradiction.
      * apply Forall_app. split.
        -- eapply Forall_impl; [exact Hle|]. simpl. intros; lia.
        -- repeat constructor. simpl. lia.
    + unfold remove_favorite, delete_favorite. run_store.
      rewrite delete_where_filter. unfold favorites_ok. cbn [snd favorites favorites_seq].
      apply favorites_ok_filter; assumption.
    + repeat split; assumption.
    + unfold save_weather_history, insert_history. run_store.
      destruct (bind_integer (humidity w)); repeat split; assumption.
    + repeat split; assumption.
Qed.

(** *** The scenario of the tests *)

Lemma has_city_with_lahore : has_city "Lahore" with_lahore.
Proof.
  exists {| fav_id := 1; fav_city := Some "Lahore";
            fav_lat := Some 31.5%float; fav_lon := Some 74.3%float |}.
  split; [left | reflexivity].
Defined.

Lemma no_city_init (c : string) : ~ has_city c init.
Proof. intros (r & Hin & _). inversion Hin. Defined.

(** [add_favorite("Lahore", 31.5, 74.3)] twice on a fresh store. *)
Lemma add_favorite_lahore :
  (exists self',
     add_favorite (Some "Lahore") (Some 31.5%float) (Some 74.3%float) with_lahore =
       (Return (false, "City already in favorites."), self')
     /\ favorites self' = favorites with_lahore)
  /\ (exists self',
       add_favorite (Some "Lahore") (Some 31.5%float) (Some 74.3%float) init =
         (Return (true, "City added to favorites."), self')
       /\ (exists id, favorites self' = favorites init ++
             [{| fav_id := id; fav_city := Some "Lahore";
                 fav_lat := Some 31.5%float; fav_lon := Some 74.3%float |}])
       /\ (exists rows, fst (get_favorites self') = Return rows
                        /\ (Some "Lahore", Some 31.5%float, Some 74.3%float) ∈ rows
                        /\ (Some 31.5%float = Some 31.5%float ->
                            Some 74.3%float = Some 74.3%float ->
                            (Some "Lahore", Some 31.5%float, Some 74.3%float) ∈ rows))).
Proof.
  split.
  - exact (proj1 (add_favorite_spec with_lahore "Lahore" _ _) has_city_with_lahore).
  - exact (proj2 (add_favorite_spec init "Lahore" (Some 31.5%float) (Some 74.3%float))
             (no_city_init "Lahore")).
Defined.



(** The store after the first call lists exactly one favourite; removing
    it empties the list, and removing it again fails. *)
Example favorites_scenario :
  fst (get_favorites with_lahore) =
    Return [(Some "Lahore", Some 31.5%float, Some 74.3%float)]
  /\ fst (remove_favorite (Some "Lahore") with_lahore) = Return (true, "City removed.")
  /\ fst (get_favorites (snd (remove_favorite (Some "Lahore") with_lahore))) = Return []
  /\ fst (remove_favorite (Some "Lahore")
            (snd (remove_favorite (Some "Lahore") with_lahore))) =
     Return (false, "City not found.").
Proof. repeat split; reflexivity. Qed.

(** Saving the observation of the test and reading the history back. *)
Example history_scenario :
  fst (get_weather_history (Some "Lahore")
         (snd (save_weather_history lahore_obs init))) =
    Return [(Some 30%float, Some 50, Some 2%float, Some "clear sky",
             Some "2025-06-13 12:00:00")]
  /\ fst (get_weather_history (Some "Other")
            (snd (save_weather_history lahore_obs init))) = Return [].
Proof. split; reflexivity. Qed.

End StoreFacts.

(** ** Further properties of [fetch_weather] *)

Module FetchMore.
Import Py Json WeatherData Examples Effects.

Lemma stateless_ret {S A} (a : A) : stateless (S:=S) (mret a).
Proof. intros s. reflexivity. Qed.

Lemma stateless_lift {S A} (o : outcome A) : stateless (S:=S) (lift o).
Proof. intros s. reflexivity. Qed.

Lemma stateless_bind {S A B} (m : M S A) (k : A -> M S B) :
  stateless m -> (forall a, stateless (k a)) -> stateless (m ≫= k).
Proof.
  intros Hm Hk s. unfold mbind, M_bind, bind.
  specialize (Hm s). destruct (m s) as [[a|e] s']; simpl in Hm; subst s'.
  - apply Hk.
  - reflexivity.
Qed.

Lemma stateless_getitem {S} (v : value) (k : key) : stateless (S:=S) (getitem v k).
Proof.
  intros s. destruct v, k; try reflexivity.
  - simpl. destruct (seq_index _ z); reflexivity.
  - simpl. destruct (d !! s0); reflexivity.
Qed.

Lemma stateless_dict_get {S} (v : value) (k : string) (dflt : value) :
  stateless (S:=S) (dict_get v k dflt).
Proof. intros s. destruct v; reflexivity. Qed.

Lemma stateless_try {S A} (m : M S A) (h : exn -> option (M S A)) :
  stateless m -> (forall e k, h e = Some k -> stateless k) ->
  stateless (try_except m h).
Proof.
  intros Hm Hh s. unfold try_except.
  specialize (Hm s). destruct (m s) as [[a|e] s']; simpl in Hm; subst s'.
  - reflexivity.
  - destruct (h e) as [k|] eqn:E; [apply (Hh _ _ E) | reflexivity].
Qed.

(** What a subscript that succeeds has found. *)
Lemma getitem_str_inv {S} (v x : value) (k : string) (s s' : S) :
  getitem v (KStr k) s = (Return x, s') -> field v (KStr k) = Some x /\ s' = s.
Proof.
  destruct v; simpl; try discriminate.
  destruct (d !! k); [|discriminate]. intros [= -> ->]. auto.
Qed.

Lemma getitem_0_inv {S} (v x : value) (s s' : S) :
  getitem v (KInt 0) s = (Return x, s') ->
  s' = s /\ (field v (KInt 0) = Some x \/ exists c, x = VStr c).
Proof.
  destruct v; simpl; try discriminate.
  - destruct (seq_index _ 0); [|discriminate]. intros [= <- ->]. eauto.
  - unfold lift, seq_index. simpl.
    destruct (Z.of_nat (length l) <=? 0); simpl; [discriminate|].
    destruct l as [|y l]; simpl; [discriminate|].
    intros [= -> ->]. auto.
Qed.

Lemma ne_200_false (d : gmap string value) :
  ne_200 (default VNone (d !! "cod")) = false -> cod_is_200 d.
Proof.
  unfold cod_is_200. destruct (d !! "cod") as [[]|]; simpl; try discriminate.
  - intros H. apply negb_false_iff, Z.eqb_eq in H. exact H.
  - intros H. apply negb_false_iff in H. exact H.
Qed.

Section World.

Variable requests_get : string -> outcome Response.
Variable datetime_now : Clock.datetime.
Variable str_float : float -> string.

Abbreviation fetch := (fetch_weather requests_get datetime_now str_float).

Tactic Notation "unfold_monad" :=
  unfold try_except, mbind, M_bind, bind, mret, M_ret, dict_get, ret, raise, lift;
  cbv beta iota.

Tactic Notation "unfold_monad" "in" hyp(H) :=
  unfold try_except, mbind, M_bind, bind, mret, M_ret, dict_get, ret, raise, lift in H;
  cbv beta iota in H.

(** A request that fails in transport is reported, not raised: when
    [requests.get], [raise_for_status] or [json] raises a
    [RequestException], the method returns no data and the text
    "Network error: " followed by the exception's message, having sent
    the one request. *)
Theorem fetch_weather_network_error (self : t) city lat lon url msg sent :
  request_url str_float self city lat lon = Some url ->
  (requests_get url = Raise (RequestException msg)
   \/ (exists resp, requests_get url = Return resp
         /\ raise_for_status resp = Raise (RequestException msg))
   \/ (exists resp, requests_get url = Return resp
         /\ raise_for_status resp = Return tt
         /\ json resp = Raise (RequestException msg))) ->
  fetch self city lat lon sent =
  (Return (None, VStr ("Network error: " +:+ msg)), sent ++ [url]).
Proof.
  intros Hurl Hfail. unfold fetch_weather. rewrite Hurl.
  unfold_monad. unfold get.
  destruct Hfail as [Hget | [(resp & Hget & Hst) | (resp & Hget & Hst & Hjson)]];
    rewrite Hget; try rewrite Hst; try rewrite Hjson; reflexivity.
Qed.

(** The method sends one request at most, to the URL its arguments
    determine, and none when they determine no URL: whatever the server
    answers and however the call ends, the requests sent afterwards are
    those sent before followed by that URL. *)
Theorem fetch_weather_one_request (self : t) city lat lon sent :
  snd (fetch self city lat lon sent) =
  sent ++ requested (request_url str_float self city lat lon).
Proof.
  unfold fetch_weather.
  destruct (request_url str_float self city lat lon) as [url|]; simpl;
    [|symmetry; apply app_nil_r].
  unfold try_except at 1. unfold mbind at 1, M_bind at 1, bind at 1, get.
  destruct (requests_get url) as [resp|e].
  - match goal with
    | |- snd (let (o, s') := ?m (sent ++ [url]) in _) = _ =>
        assert (Hm : stateless m)
    end.
    { apply stateless_bind; [apply stateless_lift|]. intros _.
      apply stateless_bind; [apply stateless_lift|]. intros data.
      apply stateless_bind; [apply stateless_dict_get|]. intros cod.
      destruct (ne_200 cod).
      - apply stateless_bind; [apply stateless_dict_get|]. intros m.
        apply stateless_ret.
      - repeat (apply stateless_bind; [apply stateless_getitem|]; intros ?).
        apply stateless_ret. }
    match goal with
    | |- snd (let (o, s') := ?m (sent ++ [url]) in _) = _ =>
        specialize (Hm (sent ++ [url])); destruct (m (sent ++ [url])) as [[a|e] s']
    end; simpl in Hm; subst s'; [reflexivity|].
    destruct e; reflexivity.
  - destruct e; reflexivity.
Qed.

(** The two [except] clauses do their work: whatever the server
    answers, neither a [RequestException] nor a [KeyError] leaves the
    method. *)
Theorem fetch_weather_handles (self : t) city lat lon sent :
  (forall msg, fst (fetch self city lat lon sent) <> Raise (RequestException msg))
  /\ (forall k, fst (fetch self city lat lon sent) <> Raise (KeyError k)).
Proof.
  unfold fetch_weather, try_except.
  match goal with
  | |- context [let (o, s') := ?m sent in _] => destruct (m sent) as [[a|e] s']
  end.
  - split; intros; discriminate.
  - destruct e; split; intros; discriminate.
Qed.

(** An empty city string counts as no city, and a city that is given
    makes the coordinates irrelevant. *)
Theorem fetch_weather_city_or_coordinates (self : t) (lat lon : option float) sent :
  fetch self (Some "") lat lon sent = fetch self None lat lon sent
  /\ (forall c : string, c <> "" ->
        fetch self (Some c) lat lon sent = fetch self (Some c) None None sent).
Proof.
  split; [reflexivity|].
  intros c Hc. destruct c as [|a c]; [contradiction|]. reflexivity.
Qed.

Ltac next_item H :=
  match type of H with
  | context [getitem ?v ?k ?s] =>
      let x := fresh "x" in
      let e := fresh "e" in
      let s1 := fresh "s" in
      let E := fresh "E" in
      destruct (getitem v k s) as [[x|e] s1] eqn:E;
      [cbv beta iota in H | destruct e; discriminate H]
  end.

(** What a returned observation tells about the call. *)
Lemma returned_observation (self : t) city lat lon sent obs err sent' :
  fetch self city lat lon sent = (Return (Some obs, err), sent') ->
  err = VNone
  /\ exists url resp d,
      request_url str_float self city lat lon = Some url
      /\ sent' = sent ++ [url]
      /\ requests_get url = Return resp
      /\ raise_for_status resp = Return tt
      /\ json resp = Return (VDict d)
      /\ cod_is_200 d
      /\ at_path [KStr "name"] (VDict d) = Some (WeatherData.city obs)
      /\ at_path [KStr "main"; KStr "temp"] (VDict d) = Some (WeatherData.temp obs)
      /\ at_path [KStr "main"; KStr "humidity"] (VDict d) = Some (WeatherData.humidity obs)
      /\ at_path [KStr "wind"; KStr "speed"] (VDict d) = Some (WeatherData.wind_speed obs)
      /\ at_path [KStr "weather"; KInt 0; KStr "description"] (VDict d)
         = Some (WeatherData.description obs)
      /\ at_path [KStr "coord"; KStr "lat"] (VDict d) = Some (WeatherData.lat obs)
      /\ at_path [KStr "coord"; KStr "lon"] (VDict d) = Some (WeatherData.lon obs)
      /\ WeatherData.timestamp obs = Clock.strftime datetime_now.
Proof.
  intros H. unfold fetch_weather in H.
  destruct (request_url str_float self city lat lon) as [url|] eqn:Hurl;
    [|discriminate H].
  unfold_monad in H. unfold get in H.
  destruct (requests_get url) as [resp|e] eqn:Hget; [|destruct e; discriminate H].
  destruct (raise_for_status resp) as [[]|e] eqn:Hst; [|destruct e; discriminate H].
  destruct (json resp) as [data|e] eqn:Hjson; [|destruct e; discriminate H].
  destruct data as [| | | | | |d]; try discriminate H.
  destruct (ne_200 (default VNone (d !! "cod"))) eqn:Hcod; [discriminate H|].
  apply ne_200_false in Hcod.
  do 14 next_item H.
  repeat match goal with
         | E : getitem _ (KStr _) _ = (Return _, _) |- _ =>
             apply getitem_str_inv in E as [? ?]
         end.
  match goal with
  | E : getitem _ (KInt 0) _ = _ |- _ =>
      apply getitem_0_inv in E as [? [Hw0 | (c & ->)]]
  end;
    [|match goal with E : field (VStr _) _ = _ |- _ => discriminate E end].
  subst. injection H as <- <- <-.
  split; [reflexivity|]. exists url, resp, d.
  repeat (split; [first [assumption | reflexivity]|]).
  cbn [WeatherData.city WeatherData.temp WeatherData.humidity WeatherData.wind_speed
       WeatherData.description WeatherData.lat WeatherData.lon WeatherData.timestamp].
  repeat match goal with
         | E1 : field ?v ?k = Some ?a, E2 : field ?v ?k = Some ?b |- _ =>
             rewrite E1 in E2; injection E2 as <-
         end.
  cbn [at_path].
  repeat match goal with
         | E : field _ _ = Some _ |- _ => rewrite E
         end.
  repeat split; reflexivity.
Qed.

(** An observation is returned only for what the provider sent: if the
    method returns data, the error is [None], one request was sent and
    answered by an object with [cod] 200, and every field of the
    observation is the field of that object at its path; the timestamp
    is the clock reading. *)
Theorem fetch_weather_observation_sound (self : t) city lat lon sent obs err sent' :
  fetch self city lat lon sent = (Return (Some obs, err), sent') ->
  err = VNone
  /\ exists url resp d,
      request_url str_float self city lat lon = Some url
      /\ sent' = sent ++ [url]
      /\ requests_get url = Return resp
      /\ raise_for_status resp = Return tt
      /\ json resp = Return (VDict d)
      /\ cod_is_200 d
      /\ at_path [KStr "name"] (VDict d) = Some (WeatherData.city obs)
      /\ at_path [KStr "main"; KStr "temp"] (VDict d) = Some (WeatherData.temp obs)
      /\ at_path [KStr "main"; KStr "humidity"] (VDict d) = Some (WeatherData.humidity obs)
      /\ at_path [KStr "wind"; KStr "speed"] (VDict d) = Some (WeatherData.wind_speed obs)
      /\ at_path [KStr "weather"; KInt 0; KStr "description"] (VDict d)
         = Some (WeatherData.description obs)
      /\ at_path [KStr "coord"; KStr "lat"] (VDict d) = Some (WeatherData.lat obs)
      /\ at_path [KStr "coord"; KStr "lon"] (VDict d) = Some (WeatherData.lon obs)
      /\ WeatherData.timestamp obs = Clock.strftime datetime_now.
Proof. apply returned_observation. Qed.

End World.

End FetchMore.

(** ** Further properties of the store *)

Module StoreMore.
Import Py DatabaseManager StoreSpec Examples Traces.

Tactic Notation "run_store" :=
  unfold try_except, mbind, M_bind, bind, commit, get_rowcount, mret, M_ret, ret;
  cbv beta iota.

Tactic Notation "run_store" "in" hyp(H) :=
  unfold try_except, mbind, M_bind, bind, commit, get_rowcount, mret, M_ret, ret in H;
  cbv beta iota in H.

Lemma delete_where_kept (c : string) (rows : list favorites_row) :
  fst (delete_where (fun r => sql_eq (fav_city r) (Some c)) rows) =
  filter (fun r => fav_city r <> Some c) rows.
Proof.
  rewrite StoreFacts.delete_where_filter. cbn [fst].
  apply list_filter_iff. intros r.
  rewrite <- not_true_iff_false, StoreFacts.sql_eq_Some. reflexivity.
Qed.

(** The store after a removal. *)
Lemma remove_favorite_run (c : string) (self : t) :
  remove_favorite (Some c) self =
  (Return (snd (delete_where (fun r => sql_eq (fav_city r) (Some c)) (favorites self)) >? 0,
           if snd (delete_where (fun r => sql_eq (fav_city r) (Some c)) (favorites self)) >? 0
           then "City removed." else "City not found."),
   {| favorites := filter (fun r => fav_city r <> Some c) (favorites self);
      favorites_seq := favorites_seq self;
      weather_history := weather_history self;
      weather_history_seq := weather_history_seq self;
      rowcount := snd (delete_where (fun r => sql_eq (fav_city r) (Some c))
                         (favorites self)) |}).
Proof.
  unfold remove_favorite, delete_favorite. run_store.
  rewrite <- delete_where_kept.
  destruct (delete_where _ (favorites self)). reflexivity.
Qed.

(** The store after an insertion that meets no constraint violation. *)
Lemma add_favorite_run (c : string) (lat lon : REAL) (self : t) :
  ~ has_city c self ->
  add_favorite (Some c) lat lon self =
  (Return (true, "City added to favorites."),
   {| favorites := favorites self ++
        [{| fav_id := next_rowid (favorites_seq self) (fav_id <$> favorites self);
            fav_city := Some c; fav_lat := bind_real lat; fav_lon := bind_real lon |}];
      favorites_seq := next_rowid (favorites_seq self) (fav_id <$> favorites self);
      weather_history := weather_history self;
      weather_history_seq := weather_history_seq self;
      rowcount := 1 |}).
Proof.
  intros Hc. unfold add_favorite, insert_favorite. run_store.
  destruct (existsb _ _) eqn:E; [|reflexivity].
  apply StoreFacts.existsb_has_city in E. contradiction.
Qed.

Lemma filter_absent (c : string) (rows : list favorites_row) :
  (forall r, r ∈ rows -> fav_city r <> Some c) ->
  filter (fun r => fav_city r <> Some c) rows = rows.
Proof.
  induction rows as [|r rows IH]; [reflexivity|]. intros H.
  rewrite filter_cons, decide_True by (apply H; left).
  rewrite IH; [reflexivity|]. intros r' Hr'. apply H. right. exact Hr'.
Qed.

(** Adding a city that is not a favourite and removing it again gives
    back the favourites table as it was, and the removal reports
    "City removed.". *)
Theorem add_then_remove (self : t) (c : string) (lat lon : REAL) :
  ~ has_city c self ->
  fst (remove_favorite (Some c) (snd (add_favorite (Some c) lat lon self))) =
    Return (true, "City removed.")
  /\ favorites (snd (remove_favorite (Some c)
                       (snd (add_favorite (Some c) lat lon self)))) =
     favorites self.
Proof.
  intros Hc. rewrite (add_favorite_run c lat lon self Hc). cbn [snd].
  rewrite remove_favorite_run. cbn [fst snd favorites].
  assert (Hpos : (snd (delete_where (fun r => sql_eq (fav_city r) (Some c))
                         (favorites self ++
                          [{| fav_id := next_rowid (favorites_seq self)
                                          (fav_id <$> favorites self);
                              fav_city := Some c; fav_lat := bind_real lat;
                              fav_lon := bind_real lon |}]))
                  >? 0) = true).
  { apply StoreFacts.deleted_positive. eexists. split.
    - apply elem_of_app. right. left.
    - apply StoreFacts.sql_eq_Some. reflexivity. }
  rewrite Hpos. split; [reflexivity|].
  rewrite filter_app, filter_cons, decide_False by (simpl; auto).
  rewrite filter_nil, app_nil_r. apply filter_absent.
  intros r Hr Hcity. apply Hc. exists r. auto.
Qed.

(** A city can be added again right after it was removed: whatever the
    store, [add_favorite] after [remove_favorite] of the same city
    succeeds and the city is the last entry of the list, with its
    coordinates as SQLite stores them, and nowhere else in it. *)
Theorem remove_then_add (self : t) (c : string) (lat lon : REAL) :
  exists rows,
    fst (add_favorite (Some c) lat lon (snd (remove_favorite (Some c) self))) =
      Return (true, "City added to favorites.")
    /\ fst (get_favorites
              (snd (add_favorite (Some c) lat lon (snd (remove_favorite (Some c) self))))) =
       Return (rows ++ [(Some c, bind_real lat, bind_real lon)])
    /\ forall la lo, (Some c, la, lo) ∉ rows.
Proof.
  rewrite remove_favorite_run. cbn [snd].
  match goal with
  | |- context [add_favorite _ _ _ ?s] => set (s1 := s)
  end.
  assert (Hgone : ~ has_city c s1).
  { intros (r & Hin & Hr). cbn [favorites s1] in Hin.
    apply list_elem_of_filter in Hin as [Hne _]. contradiction. }
  rewrite (add_favorite_run c lat lon s1 Hgone). cbn [fst snd].
  rewrite StoreFacts.get_favorites_rows. cbn [favorites].
  rewrite fmap_app. eexists. split; [reflexivity|]. split; [reflexivity|].
  intros la lo Hin. apply list_elem_of_fmap in Hin as (r & Hr & Hin).
  apply Hgone. exists r. split; [exact Hin | congruence].
Qed.

Lemma filter_unique (c : string) (rows : list favorites_row) :
  NoDup (fav_city <$> rows) ->
  (exists r, r ∈ rows /\ fav_city r = Some c) ->
  S (length (filter (fun r => fav_city r <> Some c) rows)) = length rows.
Proof.
  induction rows as [|r rows IH]; intros Hnd (x & Hin & Hx).
  - inversion Hin.
  - rewrite fmap_cons in Hnd. apply NoDup_cons in Hnd as [Hr Hnd].
    rewrite filter_cons. destruct (decide (fav_city r <> Some c)) as [Hne|He].
    + simpl. f_equal. apply IH; [exact Hnd|].
      apply elem_of_cons in Hin as [-> | Hin]; [contradiction|]. eauto.
    + assert (Hrc : fav_city r = Some c)
        by (destruct (decide (fav_city r = Some c)); [assumption | contradiction]).
      simpl. f_equal. rewrite filter_absent; [reflexivity|].
      intros y Hy Hyc. apply Hr. rewrite Hrc, <- Hyc.
      apply list_elem_of_fmap. eauto.
Qed.

(** A DELETE keeps or counts every row. *)
Lemma delete_where_count {A} (p : A -> bool) (rows : list A) :
  Z.of_nat (length (fst (delete_where p rows))) + snd (delete_where p rows) =
  Z.of_nat (length rows).
Proof.
  induction rows as [|r rows IH]; [reflexivity|].
  simpl. destruct (delete_where p rows) as [kept n]. simpl in IH.
  destruct (p r); simpl; lia.
Qed.

(** In a store that keeps the UNIQUE constraint, removing a favourite
    deletes exactly one row: the table is one row shorter and the
    cursor counts one. *)
Theorem remove_favorite_one_row (self : t) (c : string) :
  favorites_ok self -> has_city c self ->
  S (length (favorites (snd (remove_favorite (Some c) self)))) =
    length (favorites self)
  /\ rowcount (snd (remove_favorite (Some c) self)) = 1.
Proof.
  intros (_ & Hnd & _) Hc.
  pose proof (filter_unique c (favorites self) Hnd Hc) as Hlen.
  pose proof (delete_where_count (fun r => sql_eq (fav_city r) (Some c))
                (favorites self)) as Hcount.
  rewrite delete_where_kept in Hcount.
  rewrite remove_favorite_run. cbn [snd favorites rowcount].
  split; [exact Hlen | lia].
Qed.

(** One call extends the history table or leaves it as it is. *)
Lemma exec_history (c : call) (self : t) :
  weather_history self `prefix_of` weather_history (exec c self).
Proof.
  destruct c as [city lat lon | city | | w | city]; simpl.
  - unfold add_favorite, insert_favorite. run_store.
    destruct city; [destruct (existsb _ _)|]; reflexivity.
  - unfold remove_favorite, delete_favorite. run_store.
    destruct (delete_where _ (favorites self)). reflexivity.
  - reflexivity.
  - unfold save_weather_history, insert_history. run_store.
    destruct (bind_integer (humidity w)); [eexists|]; reflexivity.
  - reflexivity.
Qed.

Lemma history_of_rows (c : string) (self : t) :
  history_of c self =
  history_cols <$> filter (fun r => h_city r = Some c) (weather_history self).
Proof. unfold history_of. rewrite StoreFacts.get_weather_history_rows. reflexivity. Qed.

(** The history is a log: whatever calls are made afterwards, in
    whatever order, the rows stored so far stay where they are, and
    the history of every city keeps its entries and their order. *)
Theorem history_append_only (cs : list call) (self : t) :
  weather_history self `prefix_of` weather_history (run cs self)
  /\ forall c, history_of c self `prefix_of` history_of c (run cs self).
Proof.
  assert (Hrows : weather_history self `prefix_of` weather_history (run cs self)).
  { revert self. induction cs as [|c cs IH]; intros self; simpl; [reflexivity|].
    etransitivity; [apply exec_history | apply IH]. }
  split; [exact Hrows|]. intros c. rewrite !history_of_rows.
  destruct Hrows as [k ->]. rewrite filter_app, fmap_app.
  eexists. reflexivity.
Qed.

(** No call changes a favourite that it does not name: a row for
    another city stays in the table, with its coordinates, through
    every call that neither adds nor removes that city. *)
Theorem favorites_frame (c : call) (self : t) (r : favorites_row) :
  c <> RemoveFavorite (fav_city r) ->
  r ∈ favorites self -> r ∈ favorites (exec c self).
Proof.
  intros Hc Hin.
  destruct c as [city lat lon | city | | w | city]; simpl; try exact Hin.
  - unfold add_favorite, insert_favorite. run_store.
    destruct city; [destruct (existsb _ _)|]; cbn [snd favorites]; try exact Hin.
    apply elem_of_app. left. exact Hin.
  - unfold remove_favorite, delete_favorite. run_store.
    rewrite StoreFacts.delete_where_filter. cbn [snd favorites].
    apply list_elem_of_filter. split; [|exact Hin].
    destruct city as [x|]; [|apply StoreFacts.sql_eq_None].
    destruct (sql_eq (fav_city r) (Some x)) eqn:E; [|reflexivity].
    apply StoreFacts.sql_eq_Some in E. exfalso. apply Hc. rewrite E. reflexivity.
  - unfold save_weather_history, insert_history. run_store.
    destruct (bind_integer (humidity w)); exact Hin.
Qed.

End StoreMore.

(** ** Properties of the string operations *)

Module StrFacts.
Import Py PyStr.

Lemma append_nil (b : string) : EmptyString +:+ b = b.
Proof. reflexivity. Qed.

Lemma append_cons (x : ascii) (a b : string) :
  String x a +:+ b = String x (a +:+ b).
Proof. reflexivity. Qed.

Lemma append_length (a b : string) :
  String.length (a +:+ b) = (String.length a + String.length b)%nat.
Proof.
  induction a as [|x a IH]; [reflexivity|].
  rewrite append_cons. simpl. rewrite IH. reflexivity.
Qed.

Lemma prefix_nil (s : string) : String.prefix EmptyString s = true.
Proof. destruct s; reflexivity. Qed.

(** The separator [" ("] stands at the front of a string exactly when
    its first two characters are a space and a parenthesis. *)
Lemma prefix_sep_2 (x y : ascii) (s : string) :
  String.prefix " (" (String x (String y s)) =
  (if Ascii.ascii_dec " " x then if Ascii.ascii_dec "(" y then true else false
   else false).
Proof.
  cbn [String.prefix].
  destruct (Ascii.ascii_dec " " x); [|reflexivity].
  destruct (Ascii.ascii_dec "(" y); [apply prefix_nil | reflexivity].
Qed.

Lemma prefix_sep_1 (x : ascii) : String.prefix " (" (String x EmptyString) = false.
Proof. cbn [String.prefix]. destruct (Ascii.ascii_dec " " x); reflexivity. Qed.

(** The head of a line is the head of its first part when the
    separator follows that part. *)
Lemma split_head_line (c rest : string) :
  split_head " (" (c +:+ " (" +:+ rest) = split_head " (" c.
Proof.
  induction c as [|x c IH].
  - rewrite append_nil, !append_cons. cbn [split_head].
    rewrite prefix_sep_2. reflexivity.
  - rewrite append_cons. cbn [split_head].
    destruct c as [|y c].
    + rewrite append_nil, append_cons, prefix_sep_2, prefix_sep_1.
      destruct (Ascii.ascii_dec " " x) as [_|_]; [|f_equal; exact IH].
      destruct (Ascii.ascii_dec "(" " ") as [E|_]; [discriminate E|].
      f_equal. exact IH.
    + rewrite append_cons in *. rewrite !prefix_sep_2.
      destruct (Ascii.ascii_dec " " x), (Ascii.ascii_dec "(" y);
        try reflexivity; f_equal; exact IH.
Qed.

Lemma split_head_length (sep s : string) :
  (String.length (split_head sep s) <= String.length s)%nat.
Proof.
  induction s as [|x s IH]; [reflexivity|].
  cbn [split_head]. destruct (String.prefix sep (String x s)); simpl; lia.
Qed.

Lemma prefix_contains (sep s : string) :
  String.prefix sep s = true -> contains sep s.
Proof.
  intros H. exists EmptyString.
  revert s H. induction sep as [|x sep IH]; intros s H.
  - exists s. reflexivity.
  - destruct s as [|y s]; [discriminate|]. cbn [String.prefix] in H.
    destruct (Ascii.ascii_dec x y) as [->|]; [|discriminate].
    destruct (IH _ H) as [b E]. rewrite append_nil in E.
    exists b. rewrite append_nil, append_cons, <- E. reflexivity.
Qed.

Lemma split_head_id (sep s : string) :
  ~ contains sep s -> split_head sep s = s.
Proof.
  induction s as [|x s IH]; intros Hno; [reflexivity|].
  cbn [split_head].
  destruct (String.prefix sep (String x s)) eqn:E.
  - exfalso. apply Hno, prefix_contains, E.
  - f_equal. apply IH. intros (a & b & ->). apply Hno.
    exists (String x a), b. reflexivity.
Qed.

Lemma split_head_shorter (c : string) :
  contains " (" c -> split_head " (" c <> c.
Proof.
  intros (a & b & E) Hid.
  pose proof (split_head_length " (" a) as Hlen.
  rewrite E, split_head_line in Hid.
  apply (f_equal String.length) in Hid.
  rewrite !append_length in Hid. simpl in Hid. lia.
Qed.

(** A favourite's line in the listbox leads back to its city exactly
    when the city's name does not contain [" ("]: the text before the
    first [" ("] of the line is the text before the first [" ("] of the
    name, whatever the coordinates print as. *)
Theorem favorite_line_city (str_float : float -> string) (c : string)
    (lat lon : DatabaseManager.REAL) :
  split_head " (" (WeatherApp.favorite_line str_float (Some c, lat, lon)) =
    split_head " (" c
  /\ (split_head " (" (WeatherApp.favorite_line str_float (Some c, lat, lon)) = c
      <-> ~ contains " (" c).
Proof.
  assert (Hline : split_head " (" (WeatherApp.favorite_line str_float (Some c, lat, lon))
                  = split_head " (" c).
  { unfold WeatherApp.favorite_line, WeatherApp.format_text. apply split_head_line. }
  split; [exact Hline|]. rewrite Hline. split.
  - intros Hid (a & b & E).
    pose proof (split_head_length " (" a) as Hlen.
    rewrite E, split_head_line in Hid.
    apply (f_equal String.length) in Hid.
    rewrite !append_length in Hid. simpl in Hid. lia.
  - apply split_head_id.
Qed.

(** *** [strip] *)

Lemma lstrip_spec (s : string) :
  exists a, s = a +:+ lstrip s /\ blank a = true
            /\ (forall c, first_char (lstrip s) = Some c -> isspace c = false).
Proof.
  induction s as [|x s (a & E & Ha & Hf)].
  - exists EmptyString. repeat split. intros c [=].
  - cbn [lstrip]. destruct (isspace x) eqn:Hx.
    + exists (String x a). rewrite append_cons, <- E. repeat split.
      * simpl. rewrite Hx, Ha. reflexivity.
      * exact Hf.
    + exists EmptyString. repeat split. intros c [= <-]. exact Hx.
Qed.

Lemma rstrip_spec (s : string) :
  exists b, s = rstrip s +:+ b /\ blank b = true
            /\ (forall c, last_char (rstrip s) = Some c -> isspace c = false)
            /\ (forall c, first_char s = Some c -> isspace c = false ->
                          first_char (rstrip s) = Some c).
Proof.
  induction s as [|x s (b & E & Hb & Hl & _)].
  - exists EmptyString. repeat split; intros c [=].
  - cbn [rstrip]. destruct (rstrip s) as [|y r] eqn:Hr.
    + rewrite append_nil in E. subst b.
      destruct (isspace x) eqn:Hx.
      * exists (String x s). repeat split.
        -- simpl. rewrite Hx, Hb. reflexivity.
        -- intros c [=].
        -- intros c [= <-] Hc. congruence.
      * exists s. repeat split.
        -- exact Hb.
        -- intros c [= <-]. exact Hx.
        -- intros c [= <-] _. reflexivity.
    + exists b. rewrite append_cons, <- E. repeat split.
      * exact Hb.
      * intros c Hc. apply Hl. exact Hc.
      * intros c [= <-] _. reflexivity.
Qed.

Lemma blank_append (a b : string) :
  blank (a +:+ b) = blank a && blank b.
Proof.
  induction a as [|x a IH]; [reflexivity|].
  rewrite append_cons. simpl. rewrite IH, andb_assoc. reflexivity.
Qed.

Lemma blank_last (s : string) (c : ascii) :
  blank s = true -> last_char s = Some c -> isspace c = true.
Proof.
  induction s as [|x s IH]; [discriminate|].
  simpl. intros H. apply andb_true_iff in H as [Hx Hs].
  destruct s as [|y s]; [intros [= <-]; exact Hx | apply IH, Hs].
Qed.

Lemma strip_blank (s : string) : blank s = true -> strip s = EmptyString.
Proof.
  unfold strip. induction s as [|x s IH]; [reflexivity|].
  simpl. intros H. apply andb_true_iff in H as [Hx Hs].
  rewrite Hx. apply IH, Hs.
Qed.

Lemma strip_not_blank (s : string) : blank s = false -> strip s <> EmptyString.
Proof.
  unfold strip.
  destruct (lstrip_spec s) as (a & Ea & Ha & Hfa).
  destruct (rstrip_spec (lstrip s)) as (b & Eb & Hb & _ & Hfb).
  intros Hs E. rewrite E, append_nil in Eb. rewrite Ea, Eb, blank_append, Ha, Hb in Hs.
  discriminate.
Qed.

(** [strip] takes white space off both ends and nothing else: the
    string is a blank string, its stripped form and a blank string in a
    row, and the stripped form neither begins nor ends with white
    space.  So it is empty exactly for a blank string, and stripping
    twice changes nothing. *)
Theorem strip_spec (s : string) :
  (exists a b, s = a +:+ strip s +:+ b /\ blank a = true /\ blank b = true)
  /\ (forall c, first_char (strip s) = Some c -> isspace c = false)
  /\ (forall c, last_char (strip s) = Some c -> isspace c = false)
  /\ (strip s = EmptyString <-> blank s = true)
  /\ strip (strip s) = strip s.
Proof.
  unfold strip.
  destruct (lstrip_spec s) as (a & Ea & Ha & Hfa).
  destruct (rstrip_spec (lstrip s)) as (b & Eb & Hb & Hlb & Hfb).
  assert (Hfirst : forall c, first_char (rstrip (lstrip s)) = Some c -> isspace c = false).
  { intros c Hc. destruct (lstrip s) as [|x r] eqn:El; [discriminate Hc|].
    specialize (Hfa x eq_refl). rewrite (Hfb x eq_refl Hfa) in Hc.
    injection Hc as <-. exact Hfa. }
  assert (Hdec : s = a +:+ rstrip (lstrip s) +:+ b) by (rewrite <- Eb; exact Ea).
  split; [exists a, b; auto|]. split; [exact Hfirst|]. split; [exact Hlb|]. split.
  - split.
    + intros E. rewrite E, append_nil in Hdec. rewrite Hdec, blank_append, Ha, Hb.
      reflexivity.
    + intros Hs. destruct (rstrip (lstrip s)) as [|x r] eqn:Er; [reflexivity|].
      exfalso. rewrite Hdec, blank_append, append_cons in Hs.
      apply andb_true_iff in Hs as [_ Hs]. simpl in Hs.
      apply andb_true_iff in Hs as [Hx _].
      rewrite (Hfirst x eq_refl) in Hx. discriminate.
  - set (t := rstrip (lstrip s)) in *.
    assert (Hl : lstrip t = t).
    { destruct t as [|x r]; [reflexivity|]. simpl.
      rewrite (Hfirst x eq_refl). reflexivity. }
    rewrite Hl.
    destruct (rstrip_spec t) as (b' & Eb' & Hb' & Hlb' & _).
    clear - Hlb Eb' Hb'. revert Hlb.
    generalize dependent b'. induction t as [|x t IH]; intros b' Eb' Hb' Hlb;
      [reflexivity|].
    cbn [rstrip]. destruct t as [|y t].
    + simpl. rewrite (Hlb x eq_refl). reflexivity.
    + assert (Ht : rstrip (String y t) = String y t).
      { destruct (rstrip_spec (String y t)) as (b2 & E2 & H2 & _).
        apply (IH b2 E2 H2). intros c Hc. apply Hlb. exact Hc. }
      rewrite Ht. reflexivity.
Qed.

End StrFacts.

(** ** Properties of the handlers of the application *)

Module AppFacts.
Import Py PyStr WeatherApp AppSpec.

Ltac run_app :=
  unfold mbind, M_bind, bind, mret, M_ret, ret, raise, gets, listbox_get,
    messagebox, label_config, listbox_delete_all, canvas_replace, on_db, on_net;
  cbv beta iota.

(** The loop of [update_favorites_list] appends one line per row. *)
Lemma for_each_insert {A} (f : A -> string) (l : list A) (self : t) :
  for_each l (fun x => listbox_insert_end (f x)) self =
  (Return tt, with_listbox self (favorites_listbox self ++ (f <$> l)) (curselection self)).
Proof.
  revert self. induction l as [|x l IH]; intros self.
  - simpl. rewrite app_nil_r. destruct self; reflexivity.
  - cbn [for_each]. unfold mbind, M_bind, bind, listbox_insert_end. cbv beta iota.
    rewrite IH. unfold with_listbox. cbn. rewrite <- app_assoc. reflexivity.
Qed.

Section Handlers.

Variable requests_get : string -> outcome WeatherData.Response.
Variable datetime_now : Clock.datetime.
Variable str_float : float -> string.
Variable str_container : value -> string.
Variable capitalize : string -> string.
Variable db_add_favorite : value -> value -> value -> M DatabaseManager.t (bool * string).
Variable db_save_weather_history : WeatherData.Observation -> M DatabaseManager.t unit.

(** What [update_favorites_list] does to the application. *)
Lemma update_favorites_list_run (self : t) :
  update_favorites_list str_float self =
  (Return tt,
   with_listbox
     (with_store self (snd (DatabaseManager.get_favorites (db self))))
     (lines_of str_float (db self)) []).
Proof.
  unfold update_favorites_list. run_app.
  unfold DatabaseManager.get_favorites, DatabaseManager.select. cbn [fst snd db].
  rewrite for_each_insert. cbn.
  rewrite StoreFacts.select_where_all. unfold lines_of, with_listbox, with_store. cbn.
  rewrite <- list_fmap_compose. reflexivity.
Qed.

(** Refreshing the list makes the listbox show the stored favourites,
    one line each in table order, with nothing selected; the rows of
    both tables and the other widgets are as before. *)
Theorem update_favorites_list_spec (self : t) :
  exists self',
    update_favorites_list str_float self = (Return tt, self')
    /\ synced str_float self'
    /\ favorites_listbox self' = lines_of str_float (db self)
    /\ curselection self' = []
    /\ DatabaseManager.favorites (db self') = DatabaseManager.favorites (db self)
    /\ DatabaseManager.weather_history (db self') =
       DatabaseManager.weather_history (db self)
    /\ weather_label self' = weather_label self
    /\ dialogs self' = dialogs self
    /\ canvas_frame self' = canvas_frame self
    /\ sent self' = sent self.
Proof.
  eexists. split; [apply update_favorites_list_run|].
  repeat split.
Qed.

(** The line of a favourite leads to the text before the first
    [" ("] of its city. *)
Lemma selected_city (self : t) (i : nat) (r : DatabaseManager.favorites_row) (c : string) :
  synced str_float self ->
  DatabaseManager.favorites (db self) !! i = Some r ->
  DatabaseManager.fav_city r = Some c ->
  split_head " (" (default EmptyString (favorites_listbox self !! i)) =
  split_head " (" c.
Proof.
  intros Hs Hi Hc. rewrite Hs. unfold lines_of.
  rewrite list_lookup_fmap, Hi. cbn [fmap option_fmap option_map default].
  rewrite Hc. unfold favorite_line, format_text. apply StrFacts.split_head_line.
Qed.

(** What the handler [remove_favorite] does once a line is selected:
    the store forgets the city read from the line, a message box tells
    whether a row was deleted, and only then is the listbox refreshed. *)
Lemma remove_selected_run (self : t) (i : nat) (rest : list nat) (city : string) :
  curselection self = i :: rest ->
  split_head " (" (default EmptyString (favorites_listbox self !! i)) = city ->
  let d := snd (DatabaseManager.remove_favorite (Some city) (db self)) in
  (StoreSpec.has_city city (db self) ->
   remove_favorite str_float self =
   update_favorites_list str_float
     (with_dialog (with_store self d) (showinfo "Result" (VStr "City removed."))))
  /\ (~ StoreSpec.has_city city (db self) ->
      remove_favorite str_float self =
      (Return tt,
       with_dialog (with_store self d) (showinfo "Result" (VStr "City not found.")))).
Proof.
  intros Hsel Hcity d. unfold d. clear d.
  unfold remove_favorite. run_app. rewrite Hsel. cbv beta iota.
  rewrite Hcity. rewrite StoreMore.remove_favorite_run. cbn [fst snd].
  set (n := snd (DatabaseManager.delete_where _ _)).
  assert (Hn : (n >? 0) = true <-> StoreSpec.has_city city (db self)).
  { unfold n. rewrite StoreFacts.deleted_positive. unfold StoreSpec.has_city.
    split; intros (r & Hin & Hr); exists r; split; auto;
      apply StoreFacts.sql_eq_Some; auto. }
  split; intros Hc.
  - apply Hn in Hc. rewrite Hc. reflexivity.
  - destruct (n >? 0); [exfalso; apply Hc, Hn; reflexivity | reflexivity].
Qed.

(** Removing the selected favourite works when its name has no [" ("]:
    if the listbox shows the stored favourites and line [i] is
    selected, the row of that line is deleted and no other, the box
    says "City removed.", and the listbox shows the favourites that are
    left, with nothing selected. *)
Theorem remove_favorite_selected (self : t) (i : nat) (rest : list nat)
    (r : DatabaseManager.favorites_row) (c : string) :
  synced str_float self ->
  curselection self = i :: rest ->
  DatabaseManager.favorites (db self) !! i = Some r ->
  DatabaseManager.fav_city r = Some c ->
  ~ contains " (" c ->
  exists self',
    remove_favorite str_float self = (Return tt, self')
    /\ DatabaseManager.favorites (db self') =
       filter (fun x => DatabaseManager.fav_city x <> Some c)
         (DatabaseManager.favorites (db self))
    /\ synced str_float self'
    /\ curselection self' = []
    /\ dialogs self' = dialogs self ++ [showinfo "Result" (VStr "City removed.")].
Proof.
  intros Hs Hsel Hi Hc Hno.
  pose proof (selected_city self i r c Hs Hi Hc) as Hcity.
  rewrite (StrFacts.split_head_id " (" c Hno) in Hcity.
  destruct (remove_selected_run self i rest c Hsel Hcity) as [Hrun _].
  rewrite Hrun, update_favorites_list_run.
  - eexists. split; [reflexivity|].
    cbn. rewrite StoreMore.remove_favorite_run. cbn.
    repeat split.
  - exists r. split; [|exact Hc]. apply list_elem_of_lookup. eauto.
Qed.

(** A favourite whose name contains [" ("] cannot be removed from the
    listbox: the handler removes the city named by the text before the
    first [" ("] instead, so the selected favourite stays in the store
    and every favourite of that shorter name is gone. *)
Theorem remove_favorite_wrong_city (self : t) (i : nat) (rest : list nat)
    (r : DatabaseManager.favorites_row) (c : string) :
  synced str_float self ->
  curselection self = i :: rest ->
  DatabaseManager.favorites (db self) !! i = Some r ->
  DatabaseManager.fav_city r = Some c ->
  contains " (" c ->
  exists self',
    remove_favorite str_float self = (Return tt, self')
    /\ r ∈ DatabaseManager.favorites (db self')
    /\ ~ StoreSpec.has_city (split_head " (" c) (db self')
    /\ DatabaseManager.favorites (db self') =
       filter (fun x => DatabaseManager.fav_city x <> Some (split_head " (" c))
         (DatabaseManager.favorites (db self)).
Proof.
  intros Hs Hsel Hi Hc (a & b & E).
  pose proof (selected_city self i r c Hs Hi Hc) as Hcity.
  assert (Hne : split_head " (" c <> c).
  { intros Hid. pose proof (StrFacts.split_head_length " (" a) as Hlen.
    rewrite E, StrFacts.split_head_line in Hid.
    apply (f_equal String.length) in Hid.
    rewrite !StrFacts.append_length in Hid. simpl in Hid. lia. }
  assert (Hin : r ∈ DatabaseManager.favorites (db self))
    by (apply list_elem_of_lookup; eauto).
  assert (Hkeep : r ∈ filter (fun x => DatabaseManager.fav_city x
                                       <> Some (split_head " (" c))
                        (DatabaseManager.favorites (db self))).
  { apply list_elem_of_filter. split; [|exact Hin]. rewrite Hc. congruence. }
  assert (Hgone : forall d : DatabaseManager.t,
             DatabaseManager.favorites d =
             filter (fun x => DatabaseManager.fav_city x <> Some (split_head " (" c))
               (DatabaseManager.favorites (db self)) ->
             ~ StoreSpec.has_city (split_head " (" c) d).
  { intros d Hd (x & Hx & Hxc). rewrite Hd in Hx.
    apply list_elem_of_filter in Hx as [Hx _]. contradiction. }
  destruct (remove_selected_run self i rest _ Hsel Hcity) as [Hp Ha].
  assert (Hdec : StoreSpec.has_city (split_head " (" c) (db self)
                 \/ ~ StoreSpec.has_city (split_head " (" c) (db self)).
  { destruct (existsb (fun x => DatabaseManager.sql_eq (DatabaseManager.fav_city x)
                                  (Some (split_head " (" c)))
                (DatabaseManager.favorites (db self))) eqn:Ex.
    - left. apply StoreFacts.existsb_has_city, Ex.
    - right. intros Hh. apply StoreFacts.existsb_has_city in Hh. congruence. }
  destruct Hdec as [Hh|Hh].
  - rewrite (Hp Hh), update_favorites_list_run.
    eexists. split; [reflexivity|]. cbn.
    rewrite StoreMore.remove_favorite_run. cbn.
    split; [exact Hkeep|]. split; [|reflexivity]. apply Hgone. reflexivity.
  - rewrite (Ha Hh). eexists. split; [reflexivity|]. cbn.
    rewrite StoreMore.remove_favorite_run. cbn.
    split; [exact Hkeep|]. split; [|reflexivity]. apply Hgone. reflexivity.
Qed.

(** The loop of [show_history_graph] splits the rows into columns. *)
Lemma collect_columns
    (history : list (DatabaseManager.REAL * DatabaseManager.INTEGER *
                     DatabaseManager.REAL * DatabaseManager.TEXT *
                     DatabaseManager.TEXT)) :
  collect history =
  ((fun row => row.1.1.1.1) <$> history,
   (fun row => row.1.1.1.2) <$> history,
   (fun row => row.2) <$> history).
Proof.
  unfold collect.
  assert (H : forall a b c,
             fold_left
               (fun acc row =>
                  let '(temps, humidities, timestamps) := acc in
                  let '(temp, humidity, _, _, timestamp) := row in
                  (temps ++ [temp], humidities ++ [humidity], timestamps ++ [timestamp]))
               history (a, b, c) =
             (a ++ ((fun row => row.1.1.1.1) <$> history),
              b ++ ((fun row => row.1.1.1.2) <$> history),
              c ++ ((fun row => row.2) <$> history))).
  { induction history as [|[[[[t h] w] d] ts] history IH]; intros a b c.
    - simpl. rewrite !app_nil_r. reflexivity.
    - cbn [fold_left]. rewrite IH. cbn. rewrite <- !app_assoc. reflexivity. }
  apply H.
Qed.

(** "Show History Graph" with a line selected: a store without history
    for the city of the line gives an info box that names the city and
    leaves the chart as it was; otherwise the chart is replaced by one
    chart that plots, in the order they were saved, the temperature and
    the humidity of every observation stored for that city against its
    timestamp, and no box is shown. *)
Theorem show_history_graph_spec (self : t) (i : nat) (rest : list nat) (city : string) :
  curselection self = i :: rest ->
  split_head " (" (default EmptyString (favorites_listbox self !! i)) = city ->
  let d := snd (DatabaseManager.get_weather_history (Some city) (db self)) in
  (history_rows city (db self) = [] ->
   show_history_graph self =
   (Return tt,
    with_dialog (with_store self d)
      (showinfo "Info" (VStr ("No weather history for " +:+ city +:+ ".")))))
  /\ (history_rows city (db self) <> [] ->
      show_history_graph self =
      (Return tt,
       with_canvas (with_store self d)
         [{| title := "Weather History for " +:+ city;
             timestamps := DatabaseManager.h_timestamp <$> history_rows city (db self);
             temps := DatabaseManager.h_temp <$> history_rows city (db self);
             humidities := DatabaseManager.h_humidity <$> history_rows city (db self) |}])).
Proof.
  intros Hsel Hcity d. unfold d. clear d.
  assert (Hrows : fst (DatabaseManager.get_weather_history (Some city) (db self)) =
                  Return (StoreSpec.history_cols <$> history_rows city (db self)))
    by apply StoreFacts.get_weather_history_rows.
  unfold show_history_graph. run_app. rewrite Hsel. cbv beta iota. rewrite Hcity.
  destruct (DatabaseManager.get_weather_history (Some city) (db self)) as [o d] eqn:E.
  cbn [fst snd] in *. subst o. cbv beta iota.
  split; intros Hh.
  - rewrite Hh. reflexivity.
  - destruct (history_rows city (db self)) as [|r rows]; [contradiction|].
    rewrite fmap_cons. cbv beta iota. rewrite <- fmap_cons.
    rewrite collect_columns. cbv beta iota.
    rewrite <- !list_fmap_compose. reflexivity.
Qed.

(** Without a selection the three handlers that need one stop at once:
    "Remove Selected" and "Show History Graph" show an error box,
    selecting nothing shows no weather; none of them sends a request or
    touches the store, the listbox, the label or the chart. *)
Theorem no_selection (self : t) :
  curselection self = [] ->
  remove_favorite str_float self =
    (Return tt,
     with_dialog self (showerror "Error" (VStr "Please select a city to remove.")))
  /\ show_history_graph self =
    (Return tt,
     with_dialog self (showerror "Error" (VStr "Please select a city to view history.")))
  /\ show_favorite_weather requests_get datetime_now str_float str_container
       capitalize db_save_weather_history self = (Return tt, self).
Proof.
  intros Hsel. unfold remove_favorite, show_history_graph, show_favorite_weather.
  run_app. rewrite Hsel. repeat split.
Qed.

Abbreviation search :=
  (search_weather requests_get datetime_now str_float str_container capitalize
     db_save_weather_history).
Abbreviation add :=
  (add_to_favorites requests_get datetime_now str_float db_add_favorite).
Abbreviation show :=
  (show_favorite_weather requests_get datetime_now str_float str_container capitalize
     db_save_weather_history).
Abbreviation fetch_city := (fun (self : t) (city : string) =>
  WeatherData.fetch_weather requests_get datetime_now str_float (weather_data self)
    (Some city) None None (sent self)).

Lemma truthy_strip (s : string) :
  negb (truthy (VStr (strip s))) = blank s.
Proof.
  destruct (blank s) eqn:E.
  - rewrite (StrFacts.strip_blank s E). reflexivity.
  - pose proof (StrFacts.strip_not_blank s E) as H.
    destruct (strip s); [contradiction | reflexivity].
Qed.

(** A blank entry never reaches the network: "Search" and "Add to
    Favorites" with an entry of white space only (or empty) show the
    error box "Please enter a city name." and do nothing else. *)
Theorem blank_entry (self : t) :
  blank (city_entry self) = true ->
  search self =
    (Return tt, with_dialog self (showerror "Error" (VStr "Please enter a city name.")))
  /\ add self =
    (Return tt, with_dialog self (showerror "Error" (VStr "Please enter a city name."))).
Proof.
  intros Hb. unfold search_weather, add_to_favorites. run_app.
  rewrite truthy_strip, Hb. split; reflexivity.
Qed.

(** An error that [fetch_weather] reports is shown and nothing else
    happens: when the call returns an error that counts as true, each
    of the three handlers that fetch shows that error in one error box,
    and leaves label, listbox, chart and store as they were. *)
Theorem fetch_error_shown (self : t) (city : string) weather error l :
  fetch_city self city = (Return (weather, error), l) ->
  truthy error = true ->
  (strip (city_entry self) = city -> city <> EmptyString ->
   search self = (Return tt, with_dialog (with_sent self l) (showerror "Error" error))
   /\ add self = (Return tt, with_dialog (with_sent self l) (showerror "Error" error)))
  /\ (selected_line self <> None ->
      from_option (split_head " (") EmptyString (selected_line self) = city ->
      show self = (Return tt, with_dialog (with_sent self l) (showerror "Error" error))).
Proof.
  intros Hf Ht. split.
  - intros Hc Hne.
    assert (Hb : negb (truthy (VStr (strip (city_entry self)))) = false)
      by (rewrite Hc; destruct city; [contradiction | reflexivity]).
    unfold search_weather, add_to_favorites, fetch. run_app.
    rewrite Hb, Hc. cbn [weather_data sent]. rewrite Hf. cbv beta iota. rewrite Ht.
    split; reflexivity.
  - unfold selected_line. intros Hsel Hc.
    unfold show_favorite_weather, fetch. run_app.
    destruct (curselection self) as [|i rest]; [contradiction|].
    cbn [from_option] in Hc. cbv beta iota. rewrite Hc.
    cbn [weather_data sent]. rewrite Hf. cbv beta iota. rewrite Ht. reflexivity.
Qed.

(** When [fetch_weather] returns neither data nor an error that counts
    as true, the handlers go on with [None] for the weather. *)
Lemma none_without_error (self : t) (city : string) error l :
  fetch_city self city = (Return (None, error), l) ->
  truthy error = false ->
  (strip (city_entry self) = city -> city <> EmptyString ->
   search self = (Raise TypeError, with_sent self l)
   /\ add self = (Raise TypeError, with_sent self l))
  /\ (selected_line self <> None ->
      from_option (split_head " (") EmptyString (selected_line self) = city ->
      show self = (Raise TypeError, with_sent self l)).
Proof.
  intros Hf Ht. split.
  - intros Hc Hne.
    assert (Hb : negb (truthy (VStr (strip (city_entry self)))) = false)
      by (rewrite Hc; destruct city; [contradiction | reflexivity]).
    unfold search_weather, add_to_favorites, display_weather, subscript, fetch. run_app.
    rewrite Hb, Hc. cbn [weather_data sent]. rewrite Hf. cbv beta iota. rewrite Ht.
    split; reflexivity.
  - unfold selected_line. intros Hsel Hc.
    unfold show_favorite_weather, display_weather, subscript, fetch. run_app.
    destruct (curselection self) as [|i rest]; [contradiction|].
    cbn [from_option] in Hc. cbv beta iota. rewrite Hc.
    cbn [weather_data sent]. rewrite Hf. cbv beta iota. rewrite Ht. reflexivity.
Qed.

Lemma request_city_url (wd : WeatherData.t) (city : string) :
  city <> EmptyString ->
  WeatherData.request_url str_float wd (Some city) None None = Some (city_url wd city).
Proof. destruct city; [contradiction | reflexivity]. Qed.

(** A failure the provider reports with a message that counts as false
    (an empty string, [null], zero) is not shown: for a body whose
    [cod] is not 200 and whose [message] is such a value, "Search" and
    "Add to Favorites" raise [TypeError] at their first subscript of
    the weather, which is [None]; no box is shown, the label is
    unchanged and nothing is stored.  So does selecting a favourite. *)
Theorem provider_silent_failure (self : t) (city : string) resp d m :
  city <> EmptyString ->
  requests_get (city_url (weather_data self) city) = Return resp ->
  WeatherData.raise_for_status resp = Return tt ->
  WeatherData.json resp = Return (VDict d) ->
  Json.cod_differs d ->
  d !! "message" = Some m ->
  truthy m = false ->
  let crashed := with_sent self (sent self ++ [city_url (weather_data self) city]) in
  (strip (city_entry self) = city ->
   search self = (Raise TypeError, crashed) /\ add self = (Raise TypeError, crashed))
  /\ (selected_line self <> None ->
      from_option (split_head " (") EmptyString (selected_line self) = city ->
      show self = (Raise TypeError, crashed)).
Proof.
  intros Hne Hget Hst Hjson Hcod Hm Ht crashed.
  assert (Hf : fetch_city self city =
               (Return (None, m), sent self ++ [city_url (weather_data self) city])).
  { rewrite (FetchFacts.fetch_weather_body requests_get datetime_now str_float
               (weather_data self) (Some city) None None
               (city_url (weather_data self) city) resp (VDict d) (sent self)
               (request_city_url _ _ Hne) Hget Hst Hjson).
    unfold try_except, mbind, M_bind, bind, mret, M_ret, dict_get, ret.
    cbv beta iota. rewrite (FetchFacts.cod_differs_ne d Hcod), Hm. reflexivity. }
  destruct (none_without_error self city m _ Hf Ht) as [Hentry Hsel].
  split; [intros Hc; apply Hentry; assumption | exact Hsel].
Qed.

Abbreviation display :=
  (display_weather str_float str_container capitalize).

(** [display_weather] writes the label and nothing else, and it fails
    in two cases only, before it writes: on [None] with [TypeError],
    and on an observation whose description is not a string with
    [AttributeError]. *)
Theorem display_weather_spec (self : t) (weather : option WeatherData.Observation) :
  match weather with
  | None => display weather self = (Raise TypeError, self)
  | Some w =>
      match WeatherData.description w with
      | VStr s =>
          exists text, display weather self = (Return tt, with_label self text)
      | _ => display weather self = (Raise AttributeError, self)
      end
  end.
Proof.
  unfold display_weather, subscript. run_app.
  destruct weather as [w|]; [|reflexivity].
  destruct (WeatherData.description w); try reflexivity.
  eexists. reflexivity.
Qed.


(** The listbox always shows the stored favourites: provided the store
    keeps its favourites when it saves an observation and when it
    refuses to add one, every handler that returns leaves the listbox
    in step with the favourites table if it was so before. *)
Theorem handlers_keep_sync (self self' : t) :
  (forall w d, DatabaseManager.favorites (snd (db_save_weather_history w d)) =
               DatabaseManager.favorites d) ->
  (forall a b c d msg d',
      db_add_favorite a b c d = (Return (false, msg), d') ->
      DatabaseManager.favorites d' = DatabaseManager.favorites d) ->
  synced str_float self ->
  (search self = (Return tt, self')
   \/ add self = (Return tt, self')
   \/ show self = (Return tt, self')
   \/ remove_favorite str_float self = (Return tt, self')
   \/ show_history_graph self = (Return tt, self')
   \/ update_favorites_list str_float self = (Return tt, self')) ->
  synced str_float self'.
Proof.
  intros Hsave Hadd Hs Hh.
  assert (Hframe : forall s : t,
             favorites_listbox s = favorites_listbox self ->
             DatabaseManager.favorites (db s) = DatabaseManager.favorites (db self) ->
             synced str_float s).
  { intros s Hl Hd. unfold synced, lines_of. rewrite Hl, Hd. exact Hs. }
  assert (Hshow : forall (city : string) (s1 : t),
             (('(weather, error) ← fetch requests_get datetime_now str_float city;
               if truthy error then messagebox (showerror "Error" error)
               else display weather;;
                    w ← subscript weather;
                    on_db (db_save_weather_history w)) self = (Return tt, s1)) ->
             synced str_float s1).
  { intros city s1. unfold fetch, display_weather, subscript. run_app.
    destruct (WeatherData.fetch_weather _ _ _ _ _ _ _ _) as [[[weather error]|e] l];
      [|discriminate].
    destruct (truthy error); [intros [= <-]; apply Hframe; reflexivity|].
    destruct weather as [w|]; [|discriminate].
    destruct (WeatherData.description w); try discriminate.
    cbn [db]. specialize (Hsave w (db self)).
    destruct (db_save_weather_history w (db self)) as [[[]|e] d]; [|discriminate].
    intros [= <-]. apply Hframe; [reflexivity | exact Hsave]. }
  destruct Hh as [H | [H | [H | [H | [H | H]]]]].
  - unfold search_weather in H. revert H. run_app.
    destruct (negb _); [intros [= <-]; apply Hframe; reflexivity|].
    apply Hshow.
  - unfold add_to_favorites, fetch, subscript in H. revert H. run_app.
    destruct (negb _); [intros [= <-]; apply Hframe; reflexivity|].
    destruct (WeatherData.fetch_weather _ _ _ _ _ _ _ _) as [[[weather error]|e] l];
      [|discriminate].
    destruct (truthy error); [intros [= <-]; apply Hframe; reflexivity|].
    destruct weather as [w|]; [|discriminate].
    cbn [db].
    destruct (db_add_favorite _ _ _ (db self)) as [[[[] msg]|e] d] eqn:E;
      [| |discriminate].
    + rewrite update_favorites_list_run. intros [= <-]. reflexivity.
    + intros [= <-]. apply Hframe; [reflexivity | exact (Hadd _ _ _ _ _ _ E)].
  - unfold show_favorite_weather in H. revert H. run_app.
    destruct (curselection self) as [|i rest]; [intros [= <-]; exact Hs|].
    apply Hshow.
  - unfold remove_favorite in H. revert H. run_app.
    destruct (curselection self) as [|i rest];
      [intros [= <-]; apply Hframe; reflexivity|].
    cbv beta iota.
    destruct (DatabaseManager.remove_favorite _ (db self)) as [[[[] msg]|e] d] eqn:E;
      [| |discriminate].
    + rewrite update_favorites_list_run. intros [= <-]. reflexivity.
    + intros [= <-]. apply Hframe; [reflexivity|]. cbn [db].
      rewrite StoreMore.remove_favorite_run in E. injection E as Hn _ <-.
      cbn [DatabaseManager.favorites]. apply StoreMore.filter_absent.
      intros r Hr Hc.
      assert (Hpos : (snd (DatabaseManager.delete_where
                             (fun r => DatabaseManager.sql_eq (DatabaseManager.fav_city r)
                                (Some (split_head " ("
                                   (default EmptyString (favorites_listbox self !! i)))))
                             (DatabaseManager.favorites (db self))) >? 0) = true).
      { apply StoreFacts.deleted_positive. exists r. split; [exact Hr|].
        apply StoreFacts.sql_eq_Some, Hc. }
      congruence.
  - unfold show_history_graph in H. revert H. run_app.
    destruct (curselection self) as [|i rest];
      [intros [= <-]; apply Hframe; reflexivity|].
    cbv beta iota.
    unfold DatabaseManager.get_weather_history, DatabaseManager.select.
    cbv beta iota.
    destruct (DatabaseManager.select_where _ _ _) as [|row rows].
    + intros [= <-]. apply Hframe; reflexivity.
    + destruct (collect (row :: rows)) as [[a b] c].
      intros [= <-]. apply Hframe; reflexivity.
  - rewrite update_favorites_list_run in H. injection H as <-. reflexivity.
Qed.



End Handlers.

End AppFacts.

(** ** The further properties on concrete worlds, stores and states *)

Module Instances.
Import Py PyStr Json WeatherData Examples Scenarios.

(** An unreachable server. *)
Lemma network_error_unreachable :
  fetch_weather unreachable noon no_str (init "dummy_key") (Some "Lahore") None None [] =
  (Return (None, VStr "Network error: connection refused"), [] ++ [lahore_url]).
Proof.
  apply (FetchMore.fetch_weather_network_error unreachable noon no_str
           (init "dummy_key") (Some "Lahore") None None lahore_url
           "connection refused" []).
  - reflexivity.
  - left. reflexivity.
Defined.

(** The observation returned for the response of the test. *)
Lemma observation_sound_lahore :
  at_path [KStr "coord"; KStr "lat"] lahore = Some (VFloat 31.5).
Proof.
  destruct (FetchMore.fetch_weather_observation_sound (serve lahore) noon no_str
              (init "dummy_key") (Some "Lahore") None None []
              {| city := VStr "Lahore"; temp := VInt 30; humidity := VInt 50;
                 wind_speed := VInt 2; description := VStr "clear sky";
                 lat := VFloat 31.5; lon := VFloat 74.3;
                 timestamp := "2025-06-13 12:00:00" |}
              VNone [lahore_url] eq_refl)
    as (_ & url & resp & d & _ & _ & Hget & _ & Hjson & _ & _ & _ & _ & _ & _ & Hlat & _).
  injection Hget as <-. injection Hjson as <-. exact Hlat.
Defined.

Lemma well_shaped_name_only : well_shaped name_only.
Proof. repeat split; intros v H; vm_compute in H; discriminate H. Defined.

(** A body that lacks [main]. *)
Lemma missing_key_name_only :
  exists k,
    k ∈ expected_fields
    /\ at_path (path_of k) (VDict name_only) = None
    /\ fetch_weather (serve (VDict name_only)) noon no_str (init "dummy_key")
         (Some "Lahore") None None [] =
       (Return (None, VStr ("Data parsing error: Missing key '" +:+ k +:+ "'")),
        [] ++ [lahore_url]).
Proof.
  apply (FetchFacts.fetch_weather_missing_key (serve (VDict name_only)) noon no_str
           (init "dummy_key") (Some "Lahore") None None lahore_url
           {| raise_for_status := Return tt; json := Return (VDict name_only) |}
           name_only []); try reflexivity.
  - apply well_shaped_name_only.
  - exists "main". split; [|reflexivity].
    apply list_elem_of_In. simpl. tauto.
Defined.

(** *** The store *)

Lemma reachable_with_lahore : StoreSpec.reachable with_lahore.
Proof.
  exact (StoreSpec.reachable_exec
           (StoreSpec.AddFavorite (Some "Lahore") (Some 31.5%float) (Some 74.3%float))
           DatabaseManager.init StoreSpec.reachable_init).
Defined.

(** The store with Lahore keeps the constraints. *)
Lemma favorites_ok_with_lahore : StoreSpec.favorites_ok with_lahore.
Proof. exact (StoreFacts.reachable_favorites_ok with_lahore reachable_with_lahore). Defined.

(** Lahore added to a fresh store and removed again. *)
Lemma add_then_remove_lahore :
  fst (DatabaseManager.remove_favorite (Some "Lahore") with_lahore) =
    Return (true, "City removed.")
  /\ DatabaseManager.favorites
       (snd (DatabaseManager.remove_favorite (Some "Lahore") with_lahore)) =
     DatabaseManager.favorites DatabaseManager.init.
Proof.
  exact (StoreMore.add_then_remove DatabaseManager.init "Lahore"
           (Some 31.5%float) (Some 74.3%float) (StoreFacts.no_city_init "Lahore")).
Defined.

Lemma favorites_ok_direct : StoreSpec.favorites_ok with_lahore.
Proof.
  repeat split.
  - repeat constructor. discriminate.
  - repeat constructor. intros H. inversion H.
  - repeat constructor. intros H. inversion H.
  - repeat constructor. vm_compute. discriminate.
Defined.

(** Removing Lahore deletes its one row. *)
Lemma remove_one_row_lahore :
  S (length (DatabaseManager.favorites
               (snd (DatabaseManager.remove_favorite (Some "Lahore") with_lahore)))) =
    length (DatabaseManager.favorites with_lahore)
  /\ DatabaseManager.rowcount
       (snd (DatabaseManager.remove_favorite (Some "Lahore") with_lahore)) = 1.
Proof.
  exact (StoreMore.remove_favorite_one_row with_lahore "Lahore"
           favorites_ok_direct StoreFacts.has_city_with_lahore).
Defined.

Lemma lahore_row_stored : lahore_row ∈ DatabaseManager.favorites with_lahore.
Proof. left. Defined.

(** Saving an observation keeps the favourite. *)
Lemma favorites_frame_save :
  lahore_row ∈ DatabaseManager.favorites
    (StoreSpec.exec (StoreSpec.SaveWeatherHistory lahore_obs) with_lahore).
Proof.
  apply (StoreMore.favorites_frame (StoreSpec.SaveWeatherHistory lahore_obs)
           with_lahore lahore_row).
  - discriminate.
  - exact lahore_row_stored.
Defined.

(** *** The application *)

Import WeatherApp AppSpec.

Lemma synced_app (d : DatabaseManager.t) (entry : string) (selection : list nat) :
  synced no_str (app d entry selection).
Proof. reflexivity. Defined.

(** Nothing selected. *)
Lemma no_selection_lahore :
  remove_favorite no_str (app with_lahore "Lahore" []) =
    (Return tt,
     with_dialog (app with_lahore "Lahore" [])
       (showerror "Error" (VStr "Please select a city to remove.")))
  /\ show_history_graph (app with_lahore "Lahore" []) =
    (Return tt,
     with_dialog (app with_lahore "Lahore" [])
       (showerror "Error" (VStr "Please select a city to view history.")))
  /\ show_favorite_weather (serve lahore) noon no_str (fun _ => EmptyString)
       (fun s => s) save_cells (app with_lahore "Lahore" []) =
     (Return tt, app with_lahore "Lahore" []).
Proof.
  exact (AppFacts.no_selection (serve lahore) noon no_str (fun _ => EmptyString)
           (fun s => s) save_cells (app with_lahore "Lahore" []) eq_refl).
Defined.

Lemma no_paren_lahore : ~ contains " (" "Lahore".
Proof.
  intros H. apply StrFacts.split_head_shorter in H. apply H. reflexivity.
Defined.

(** The only favourite, selected and removed. *)
Lemma remove_selected_lahore :
  exists self',
    remove_favorite no_str (app with_lahore "" [0%nat]) = (Return tt, self')
    /\ DatabaseManager.favorites (db self') = []
    /\ synced no_str self'.
Proof.
  destruct (AppFacts.remove_favorite_selected no_str (app with_lahore "" [0%nat])
              0%nat [] lahore_row "Lahore" (synced_app _ _ _) eq_refl eq_refl eq_refl
              no_paren_lahore) as (self' & Hrun & Hfav & Hs & _).
  exists self'. split; [exact Hrun|]. split; [|exact Hs].
  rewrite Hfav. reflexivity.
Defined.

Lemma paren_in_name : contains " (" "Foo (Bar)".
Proof. exists "Foo", "Bar)". reflexivity. Defined.

(** A favourite named "Foo (Bar)" stays when it is selected and
    removed. *)
Lemma remove_wrong_city_paren :
  exists self',
    remove_favorite no_str (app with_paren "" [0%nat]) = (Return tt, self')
    /\ paren_row ∈ DatabaseManager.favorites (db self').
Proof.
  destruct (AppFacts.remove_favorite_wrong_city no_str (app with_paren "" [0%nat])
              0%nat [] paren_row "Foo (Bar)" (synced_app _ _ _) eq_refl eq_refl eq_refl
              paren_in_name) as (self' & Hrun & Hin & _).
  exists self'. split; [exact Hrun | exact Hin].
Defined.

(** The chart of Lahore after one observation. *)
Lemma show_history_graph_lahore :
  show_history_graph (app with_history "" [0%nat]) =
  (Return tt,
   with_canvas
     (with_store (app with_history "" [0%nat])
        (snd (DatabaseManager.get_weather_history (Some "Lahore") with_history)))
     [{| title := "Weather History for Lahore";
         timestamps := [Some "2025-06-13 12:00:00"];
         temps := [Some 30%float];
         humidities := [Some 50] |}]).
Proof.
  apply (proj2 (AppFacts.show_history_graph_spec (app with_history "" [0%nat])
                  0%nat [] "Lahore" eq_refl eq_refl)).
  discriminate.
Defined.

(** An entry of spaces. *)
Lemma blank_entry_spaces :
  search_weather (serve lahore) noon no_str (fun _ => EmptyString) (fun s => s)
    save_cells (app with_lahore "   " []) =
    (Return tt,
     with_dialog (app with_lahore "   " [])
       (showerror "Error" (VStr "Please enter a city name.")))
  /\ add_to_favorites (serve lahore) noon no_str add_cells (app with_lahore "   " []) =
    (Return tt,
     with_dialog (app with_lahore "   " [])
       (showerror "Error" (VStr "Please enter a city name."))).
Proof.
  exact (AppFacts.blank_entry (serve lahore) noon no_str (fun _ => EmptyString)
           (fun s => s) add_cells save_cells (app with_lahore "   " []) eq_refl).
Defined.

(** The provider does not know the city. *)
Lemma fetch_error_shown_404 :
  search_weather (serve (VDict not_found)) noon no_str (fun _ => EmptyString)
    (fun s => s) save_cells (app with_lahore " Lahore " []) =
  (Return tt,
   with_dialog (with_sent (app with_lahore " Lahore " []) [lahore_url])
     (showerror "Error" (VStr "city not found"))).
Proof.
  apply (proj1 (AppFacts.fetch_error_shown (serve (VDict not_found)) noon no_str
                  (fun _ => EmptyString) (fun s => s) add_cells save_cells
                  (app with_lahore " Lahore " []) "Lahore" None (VStr "city not found")
                  [lahore_url] eq_refl eq_refl)); [reflexivity | discriminate].
Defined.

(** The provider reports a failure without a message. *)
Lemma cod_differs_silent : Json.cod_differs silent_failure.
Proof. vm_compute. discriminate. Defined.

(** "Search" fails on that answer. *)
Lemma provider_silent_failure_404 :
  search_weather (serve (VDict silent_failure)) noon no_str (fun _ => EmptyString)
    (fun s => s) save_cells (app with_lahore "Lahore" []) =
  (Raise TypeError, with_sent (app with_lahore "Lahore" []) ([] ++ [lahore_url])).
Proof.
  apply (proj1 (AppFacts.provider_silent_failure (serve (VDict silent_failure)) noon
                  no_str (fun _ => EmptyString) (fun s => s) add_cells save_cells
                  (app with_lahore "Lahore" []) "Lahore"
                  {| WeatherData.raise_for_status := Return tt;
                     WeatherData.json := Return (VDict silent_failure) |}
                  silent_failure (VStr "")
                  ltac:(discriminate) eq_refl eq_refl eq_refl cod_differs_silent
                  eq_refl eq_refl)).
  reflexivity.
Defined.


Lemma save_cells_keeps (w : WeatherData.Observation) (d : DatabaseManager.t) :
  DatabaseManager.favorites (snd (save_cells w d)) = DatabaseManager.favorites d.
Proof.
  unfold save_cells, mbind, M_bind, bind, lift.
  destruct (text_cell (WeatherData.city w)); [|reflexivity].
  destruct (real_cell (WeatherData.temp w)); [|reflexivity].
  destruct (integer_cell (WeatherData.humidity w)); [|reflexivity].
  destruct (real_cell (WeatherData.wind_speed w)); [|reflexivity].
  destruct (text_cell (WeatherData.description w)); [|reflexivity].
  unfold DatabaseManager.save_weather_history, DatabaseManager.insert_history,
    mbind, M_bind, bind.
  destruct (DatabaseManager.bind_integer _); reflexivity.
Qed.

Lemma add_cells_refused (a b c : value) (d : DatabaseManager.t) (msg : string)
    (d' : DatabaseManager.t) :
  add_cells a b c d = (Return (false, msg), d') ->
  DatabaseManager.favorites d' = DatabaseManager.favorites d.
Proof.
  unfold add_cells, DatabaseManager.add_favorite, DatabaseManager.insert_favorite,
    try_except, mbind, M_bind, bind, lift.
  destruct (text_cell a) as [[x|]|]; [| |discriminate];
    (destruct (real_cell b); [|discriminate]);
    (destruct (real_cell c); [|discriminate]);
    [destruct (existsb _ _)|]; intros H;
    try discriminate H; injection H as _ <-; reflexivity.
Qed.

(** After "Remove Selected" on the only favourite the listbox is in
    step with the store. *)
Lemma handlers_keep_sync_remove :
  synced no_str (snd (remove_favorite no_str (app with_lahore "" [0%nat]))).
Proof.
  apply (AppFacts.handlers_keep_sync (serve lahore) noon no_str (fun _ => EmptyString)
           (fun s => s) add_cells save_cells (app with_lahore "" [0%nat])
           (snd (remove_favorite no_str (app with_lahore "" [0%nat])))
           save_cells_keeps add_cells_refused (synced_app _ _ _)).
  right. right. right. left. reflexivity.
Defined.


End Instances.
